(** * Jira -> Pulsar ingestion pipeline: normalisation, envelope, drivers

    A shallow embedding of [jira-pulsar-integration/jira-pulsar-webhook.py]
    and [jira-pulsar-integration/jira-to-pulsar-sync.py].  The two scripts
    share [filter_relevant_fields], [prepare_data_for_pulsar],
    [send_to_pulsar] and [get_issue_details] verbatim; they are embedded
    once, followed by the webhook handler and the backfill driver. *)

From Stdlib Require Import List String Ascii ZArith NArith Bool Lia.
From Stdlib Require Import DecimalString.
Import ListNotations.
Open Scope string_scope.
Open Scope list_scope.

(** ** Python values that [response.json()] / [request.json] can yield *)

#[local] Unset Elimination Schemes.
Inductive json : Type :=
| JNull
| JBool (b : bool)
| JInt (n : Z)
| JFloat (mantissa exponent : Z)
| JStr (s : string)
| JList (l : list json)
| JDict (d : list (string * json)).
#[local] Set Elimination Schemes.

(** A Python [dict] keeps insertion order; its items are an association
    list whose keys are pairwise distinct. *)
Definition items := list (string * json).

Definition keys (d : items) : list string := map fst d.

Definition unique_keys (d : items) : Prop := NoDup (keys d).

(** ** Exceptions and the error monad of the pure helpers *)

Inductive exn : Type :=
| AttributeError
| TypeError
| KeyError
| BadRequest.

Inductive result (A : Type) : Type :=
| Ok (a : A)
| Raise (e : exn).
Arguments Ok {A} a.
Arguments Raise {A} e.

Definition rbind {A B} (r : result A) (k : A -> result B) : result B :=
  match r with
  | Ok a => k a
  | Raise e => Raise e
  end.

Declare Scope result_scope.
Delimit Scope result_scope with result.
Notation "x <- r ;; k" := (rbind r (fun x => k))
  (at level 61, r at next level, right associativity) : result_scope.
Open Scope result_scope.

Fixpoint rmap {A B} (f : A -> result B) (l : list A) : result (list B) :=
  match l with
  | [] => Ok []
  | a :: l' => b <- f a ;; bs <- rmap f l' ;; Ok (b :: bs)
  end.

(** ** Python primitives on those values *)

Module Py.

(** [k in s] for a set literal of strings. *)
Definition mem (k : string) (s : list string) : bool :=
  existsb (String.eqb k) s.
#[global] Arguments mem : simpl never.

(** [d.get(k)] on the items of a dict; [None] when the key is absent. *)
Fixpoint lookup (k : string) (d : items) : option json :=
  match d with
  | [] => None
  | (k', v) :: d' => if String.eqb k k' then Some v else lookup k d'
  end.

(** [d[k] = v]: an existing key keeps its position, a new one goes last. *)
Fixpoint set (k : string) (v : json) (d : items) : items :=
  match d with
  | [] => [(k, v)]
  | (k', v') :: d' =>
      if String.eqb k k' then (k', v) :: d' else (k', v') :: set k v d'
  end.

(** One turn of a comprehension: the pair is stored when its key passes. *)
Definition store_if (keep : string -> bool) (acc : items) (kv : string * json) : items :=
  if keep (fst kv) then set (fst kv) (snd kv) acc else acc.

(** [{k: v for k, v in src if keep(k)}], built by successive stores. *)
Definition comprehension (keep : string -> bool) (src : items) : items :=
  fold_left (store_if keep) src [].

Definition is_dict (v : json) : bool :=
  match v with JDict _ => true | _ => false end.

(** [obj.get(k, default)]: only a dict has the method. *)
Definition get (obj : json) (k : string) (default : json) : result json :=
  match obj with
  | JDict d => Ok (match lookup k d with Some v => v | None => default end)
  | _ => Raise AttributeError
  end.

(** [obj.items()]. *)
Definition dict_items (obj : json) : result items :=
  match obj with
  | JDict d => Ok d
  | _ => Raise AttributeError
  end.

(** [obj[k]] with a string subscript. *)
Definition getitem (obj : json) (k : string) : result json :=
  match obj with
  | JDict d => match lookup k d with Some v => Ok v | None => Raise KeyError end
  | _ => Raise TypeError
  end.

Fixpoint chars (s : string) : list json :=
  match s with
  | EmptyString => []
  | String c s' => JStr (String c EmptyString) :: chars s'
  end.

(** Iteration ([for x in obj], [list.extend(obj)]): a list yields its
    elements, a dict its keys, a string its characters. *)
Definition iter (obj : json) : result (list json) :=
  match obj with
  | JList l => Ok l
  | JDict d => Ok (map JStr (keys d))
  | JStr s => Ok (chars s)
  | _ => Raise TypeError
  end.

(** [len(obj)]. *)
Definition len (obj : json) : result Z :=
  match obj with
  | JList l => Ok (Z.of_nat (List.length l))
  | JDict d => Ok (Z.of_nat (List.length d))
  | JStr s => Ok (Z.of_nat (String.length s))
  | _ => Raise TypeError
  end.

Definition is_str (k : string) (v : json) : bool :=
  match v with JStr s => String.eqb k s | _ => false end.

(** [k in obj] for a string [k]: key test on a dict, element test on a
    list, substring test on a string. *)
Definition contains (k : string) (obj : json) : result bool :=
  match obj with
  | JDict d => Ok (mem k (keys d))
  | JList l => Ok (existsb (is_str k) l)
  | JStr s => Ok (match String.index 0 k s with Some _ => true | None => false end)
  | _ => Raise TypeError
  end.

(** Truth value of an object in [if obj:]. *)
Definition truthy (v : json) : bool :=
  match v with
  | JNull => false
  | JBool b => b
  | JInt n => negb (Z.eqb n 0)
  | JFloat m _ => negb (Z.eqb m 0)
  | JStr s => negb (String.eqb s "")
  | JList l => match l with [] => false | _ => true end
  | JDict d => match d with [] => false | _ => true end
  end.

End Py.

(** ** [filter_relevant_fields] *)

Definition relevant_fields : list string := ["id"; "key"; "fields"].

Definition relevant_subfields : list string :=
  ["issuetype"; "project"; "priority"; "summary"; "description"; "status";
   "creator"; "reporter"; "created"; "updated"; "labels"; "comment"].

Definition relevant_nested_fields : list (string * list string) :=
  [("statusCategory", ["key"; "name"; "colorName"]);
   ("creator", ["displayName"; "emailAddress"; "timeZone"]);
   ("reporter", ["displayName"; "emailAddress"; "timeZone"]);
   ("project", ["key"; "name"; "projectTypeKey"]);
   ("issuetype", ["name"; "description"; "subtask"])].

Fixpoint nested_whitelist_in (tbl : list (string * list string)) (k : string)
  : option (list string) :=
  match tbl with
  | [] => None
  | (k', ws) :: tbl' => if String.eqb k k' then Some ws else nested_whitelist_in tbl' k
  end.

(** [relevant_nested_fields[k]] when [k in relevant_nested_fields]. *)
Definition nested_whitelist (k : string) : option (list string) :=
  nested_whitelist_in relevant_nested_fields k.

(** One element of the [comments] list comprehension (lines 94-102). *)
Definition rebuild_comment (comment : json) : result json :=
  a1 <- Py.get comment "author" (JDict []) ;;
  displayName <- Py.get a1 "displayName" JNull ;;
  a2 <- Py.get comment "author" (JDict []) ;;
  emailAddress <- Py.get a2 "emailAddress" JNull ;;
  body <- Py.get comment "body" JNull ;;
  created <- Py.get comment "created" JNull ;;
  updated <- Py.get comment "updated" JNull ;;
  Ok (JDict [("author", JDict [("displayName", displayName);
                               ("emailAddress", emailAddress)]);
             ("body", body);
             ("created", created);
             ("updated", updated)]).

(** The value stored under a whitelisted [field_key] (lines 85-108):
    nested pruning, comment rebuilding, or the value as it is. *)
Definition filter_field (field_key : string) (field_value : json) : result json :=
  match (if Py.is_dict field_value then nested_whitelist field_key else None) with
  | Some ws =>
      its <- Py.dict_items field_value ;;
      Ok (JDict (Py.comprehension (fun k => Py.mem k ws) its))
  | None =>
      if String.eqb field_key "comment" && Py.is_dict field_value then
        src <- Py.get field_value "comments" (JList []) ;;
        seq <- Py.iter src ;;
        comments <- rmap rebuild_comment seq ;;
        Ok (JDict [("comments", JList comments)])
      else Ok field_value
  end.

(** The loop over [filtered_data["fields"].items()] (lines 83-108). *)
Fixpoint filter_fields_loop (src filtered_fields : items) : result items :=
  match src with
  | [] => Ok filtered_fields
  | (field_key, field_value) :: rest =>
      if Py.mem field_key relevant_subfields then
        v <- filter_field field_key field_value ;;
        filter_fields_loop rest (Py.set field_key v filtered_fields)
      else filter_fields_loop rest filtered_fields
  end.

Definition filter_relevant_fields (issue_data : json) : result json :=
  _ <- Py.get issue_data "fields" (JDict []) ;;
  its <- Py.dict_items issue_data ;;
  let filtered_data := Py.comprehension (fun k => Py.mem k relevant_fields) its in
  if Py.mem "fields" (keys filtered_data) then
    fields <- Py.getitem (JDict filtered_data) "fields" ;;
    fits <- Py.dict_items fields ;;
    filtered_fields <- filter_fields_loop fits [] ;;
    Ok (JDict (Py.set "fields" (JDict filtered_fields) filtered_data))
  else Ok (JDict filtered_data).

(** ** [prepare_data_for_pulsar] *)

(** The fields of a [datetime] object. *)
Record datetime : Type := {
  year : N; month : N; day : N;
  hour : N; minute : N; second : N; microsecond : N
}.

(** The ranges Python's [datetime] enforces, with a four-digit year (the
    padding [strftime] gives to [%Y] below 1000 depends on the platform). *)
Definition valid_datetime (t : datetime) : Prop :=
  (1000 <= year t <= 9999)%N /\ (1 <= month t <= 12)%N /\ (1 <= day t <= 31)%N /\
  (hour t < 24)%N /\ (minute t < 60)%N /\ (second t < 60)%N /\
  (microsecond t < 1000000)%N.

Module Strftime.

Definition decimal (n : N) : string := NilZero.string_of_uint (N.to_uint n).

Fixpoint zeros (n : nat) : string :=
  match n with O => "" | S n' => String "0"%char (zeros n') end.

(** A conversion such as [%m] or [%f]: decimal, zero-padded to [width]. *)
Definition padded (width : nat) (n : N) : string :=
  let d := decimal n in (zeros (width - String.length d) ++ d)%string.

(** [t.strftime("%Y-%m-%dT%H:%M:%S.%f")]. *)
Definition strftime (t : datetime) : string :=
  (padded 4 (year t) ++ "-" ++ padded 2 (month t) ++ "-" ++ padded 2 (day t)
     ++ "T" ++ padded 2 (hour t) ++ ":" ++ padded 2 (minute t) ++ ":"
     ++ padded 2 (second t) ++ "." ++ padded 6 (microsecond t))%string.

(** [s[:-3]]. *)
Definition drop_last3 (s : string) : string :=
  substring 0 (String.length s - 3) s.

(** [s.split(sep)[0]]: the part before the first separator. *)
Fixpoint split_head (sep : ascii) (s : string) : string :=
  match s with
  | EmptyString => EmptyString
  | String c s' => if Ascii.eqb c sep then EmptyString else String c (split_head sep s')
  end.

End Strftime.

(** Line 117: the captured instant rendered with milliseconds and a
    literal [+0000]. *)
Definition timestamp_of (now : datetime) : string :=
  (Strftime.drop_last3 (Strftime.strftime now) ++ "+0000")%string.

(** [f"{jira_config['jira_url']}"]: an unset variable renders as [None]. *)
Definition format_url (jira_url : option string) : string :=
  match jira_url with Some u => u | None => "None" end.

(** [prefix + v]: string concatenation accepts only a string. *)
Definition str_concat (prefix : string) (v : json) : result string :=
  match v with
  | JStr s => Ok (prefix ++ s)%string
  | _ => Raise TypeError
  end.

Definition prepare_data_for_pulsar (jira_url : option string) (now : datetime)
    (issue_data : json) (event_type : string) : result json :=
  let timestamp := timestamp_of now in
  filtered <- filter_relevant_fields issue_data ;;
  filtered_data <- Py.dict_items filtered ;;
  let filtered_data := Py.set "timestamp" (JStr timestamp) filtered_data in
  let filtered_data :=
    Py.set "date" (JStr (Strftime.split_head "T"%char timestamp)) filtered_data in
  let filtered_data := Py.set "event_type" (JStr event_type) filtered_data in
  key <- Py.get issue_data "key" (JStr "") ;;
  url <- str_concat (format_url jira_url ++ "/browse/")%string key ;;
  Ok (JDict (Py.set "url" (JStr url) filtered_data)).

(** ** The outside world: tracker, bus, clock, log *)

(** What [requests] can raise as a [RequestException]: a transport
    failure, [raise_for_status()] on a non-2xx status, or [response.json()]
    on a body that is not JSON. *)
Inductive request_exception : Type :=
| ConnectionError
| HTTPError (status : Z)
| JSONDecodeError.

(** [requests.get]; [raise_for_status()]; [response.json()] as one read. *)
Inductive http_outcome : Type :=
| RequestException (e : request_exception)
| Body (data : json).

Inductive message : Type :=
| ErrorFetchingIssues (e : request_exception)
| ErrorFetchingDetails (issue_id : json) (e : request_exception)
| DataSent (id : json)
| ErrorSendingData
| FailedToRetrieveIssues.

Inductive event : Type :=
| SearchGet (start_at max_results : Z)
| IssueGet (issue_id : json)
| ProducerSend (data : json)
| Print (m : message).

(** The environment answers each call; the first argument is the number of
    calls made so far, so that answers may change during a run. *)
Record env : Type := {
  jira_url : option string;
  search_get : nat -> Z -> Z -> http_outcome;
  issue_get : nat -> json -> http_outcome;
  producer_send : nat -> json -> bool;
  datetime_now : nat -> datetime
}.

Record state : Type := {
  calls : nat;
  trace : list event
}.

Definition initial : state := {| calls := 0; trace := [] |}.

(** State and exceptions; [None] is a loop that ran out of fuel. *)
Definition M (A : Type) : Type := state -> option (result A * state).

Definition ret {A} (a : A) : M A := fun s => Some (Ok a, s).

Definition raise {A} (e : exn) : M A := fun s => Some (Raise e, s).

Definition bind {A B} (m : M A) (k : A -> M B) : M B :=
  fun s =>
    match m s with
    | None => None
    | Some (Ok a, s') => k a s'
    | Some (Raise e, s') => Some (Raise e, s')
    end.

Definition lift {A} (r : result A) : M A :=
  match r with Ok a => ret a | Raise e => raise e end.

Definition emit (e : event) : M unit :=
  fun s => Some (Ok tt, {| calls := calls s; trace := trace s ++ [e] |}).

(** An answer of the environment, recorded in the trace. *)
Definition call {A} (e : event) (answer : nat -> A) : M A :=
  fun s => Some (Ok (answer (calls s)),
                 {| calls := S (calls s); trace := trace s ++ [e] |}).

(** A silent read of the clock. *)
Definition clock (now : nat -> datetime) : M datetime :=
  fun s => Some (Ok (now (calls s)), {| calls := S (calls s); trace := trace s |}).

Declare Scope io_scope.
Delimit Scope io_scope with io.
Notation "x <- m ;; k" := (bind m (fun x => k))
  (at level 61, m at next level, right associativity) : io_scope.
Notation "m ;;; k" := (bind m (fun _ => k))
  (at level 61, right associativity) : io_scope.

(** What the handler reads from Flask's [request], and what it returns. *)
Record request : Type := {
  is_json : bool;
  json_body : option json;
  x_event_key : option string
}.

Definition response : Type := (json * Z)%type.

Definition jsonify (k v : string) : json := JDict [(k, JStr v)].

Section Pipeline.

Variable E : env.

Local Open Scope io_scope.

(** [get_issue_details]: [None] after a logged request failure. *)
Definition get_issue_details (issue_id : json) : M json :=
  r <- call (IssueGet issue_id) (fun t => issue_get E t issue_id) ;;
  match r with
  | Body data => ret data
  | RequestException e => emit (Print (ErrorFetchingDetails issue_id e)) ;;; ret JNull
  end.

Definition prepare (issue_data : json) (event_type : string) : M json :=
  now <- clock (datetime_now E) ;;
  lift (prepare_data_for_pulsar (jira_url E) now issue_data event_type).

(** [send_to_pulsar]: every exception of the [try] body, the [KeyError]
    of [data['id']] included, ends in the [except] branch. *)
Definition send_to_pulsar (data : json) : M unit :=
  sent <- call (ProducerSend data) (fun t => producer_send E t data) ;;
  if sent : bool then
    match Py.getitem data "id" with
    | Ok id => emit (Print (DataSent id))
    | Raise _ => emit (Print ErrorSendingData)
    end
  else emit (Print ErrorSendingData).

(** *** The webhook handler *)

(** [request.json]: a body that does not parse is a [BadRequest]. *)
Definition request_json (req : request) : M json :=
  match json_body req with
  | Some data => ret data
  | None => raise BadRequest
  end.

Definition jira_webhook (req : request) : M response :=
  if negb (is_json req) then
    ret (jsonify "error" "Invalid request format; expected JSON", 400%Z)
  else
    data <- request_json req ;;
    let event_type :=
      match x_event_key req with Some k => k | None => "Unknown Event" end in
    has_issue <- lift (Py.contains "issue" data) ;;
    if has_issue : bool then
      issue <- lift (Py.getitem data "issue") ;;
      issue_id <- lift (Py.getitem issue "id") ;;
      issue_data <- get_issue_details issue_id ;;
      if Py.truthy issue_data then
        data_for_pulsar <- prepare issue_data event_type ;;
        send_to_pulsar data_for_pulsar ;;;
        ret (jsonify "status" "success", 200%Z)
      else ret (jsonify "error" "Failed to fetch issue details", 500%Z)
    else ret (jsonify "error" "No issue data found in payload", 400%Z).

(** *** The backfill driver *)

Definition max_results : Z := 50.

(** The [while True] loop of [get_all_issues]; [fuel] bounds the number
    of iterations. *)
Fixpoint get_all_issues_loop (fuel : nat) (issues : list json) (start_at : Z)
  : M (list json) :=
  match fuel with
  | O => fun _ => None
  | S fuel' =>
      r <- call (SearchGet start_at max_results)
                (fun t => search_get E t start_at max_results) ;;
      match r with
      | RequestException e => emit (Print (ErrorFetchingIssues e)) ;;; ret issues
      | Body data =>
          found <- lift (Py.get data "issues" (JList [])) ;;
          page <- lift (Py.iter found) ;;
          let issues := issues ++ page in
          let start_at := (start_at + max_results)%Z in
          listed <- lift (Py.getitem data "issues") ;;
          n <- lift (Py.len listed) ;;
          if (n <? max_results)%Z then ret issues
          else get_all_issues_loop fuel' issues start_at
      end
  end.

Definition get_all_issues (fuel : nat) : M (list json) :=
  get_all_issues_loop fuel [] 0%Z.

(** The [for issue in issues] loop of [main]. *)
Fixpoint for_each_issue (issues : list json) : M unit :=
  match issues with
  | [] => ret tt
  | issue :: rest =>
      issue_id <- lift (Py.getitem issue "id") ;;
      issue_data <- get_issue_details issue_id ;;
      (if Py.truthy issue_data then
         data_for_pulsar <- prepare issue_data "initial_load" ;;
         send_to_pulsar data_for_pulsar
       else ret tt) ;;;
      for_each_issue rest
  end.

Definition main (fuel : nat) : M unit :=
  issues <- get_all_issues fuel ;;
  match issues with
  | [] => emit (Print FailedToRetrieveIssues)
  | _ => for_each_issue issues
  end.

End Pipeline.

(** ** Auxiliary notions used in the statements *)

(** Line 78: the top-level comprehension of [filter_relevant_fields]. *)
Definition top_level (src : items) : items :=
  Py.comprehension (fun k => Py.mem k relevant_fields) src.

(** A field already in normal form. *)
Definition settled (kv : string * json) : Prop :=
  Py.mem (fst kv) relevant_subfields = true /\
  filter_field (fst kv) (snd kv) = Ok (snd kv).

(** The value reached by following keys from the root of a document. *)
Fixpoint at_path (path : list string) (v : json) : option json :=
  match path with
  | [] => Some v
  | k :: path' =>
      match v with
      | JDict d =>
          match Py.lookup k d with
          | Some v' => at_path path' v'
          | None => None
          end
      | _ => None
      end
  end.

(** ** Sample documents *)

(** The end-to-end scenario of the specification, with the status
    category as the tracker's REST API returns it. *)
Definition tracker_status_category : json :=
  JDict [("self", JStr "http://jira/rest/api/2/statuscategory/2");
         ("id", JInt 2); ("key", JStr "new");
         ("colorName", JStr "blue-gray"); ("name", JStr "To Do")].

Definition tracker_fields : items :=
  [("summary", JStr "Fix bug");
   ("status", JDict [("name", JStr "To Do");
                     ("statusCategory", tracker_status_category)]);
   ("comment", JDict [("comments", JList [
      JDict [("author", JDict [("displayName", JStr "Alice");
                               ("emailAddress", JStr "a@x.com")]);
             ("body", JStr "hi");
             ("created", JStr "2024-01-01T00:00:00.000+0000");
             ("updated", JStr "2024-01-01T00:00:00.000+0000")]])])].

Definition tracker_issue_items : items :=
  [("id", JStr "10001"); ("key", JStr "TES-1"); ("fields", JDict tracker_fields)].

Definition tracker_issue : json := JDict tracker_issue_items.









(** An instant of the clock. *)
Definition sample_instant : datetime :=
  {| year := 2024; month := 1; day := 2;
     hour := 3; minute := 4; second := 5; microsecond := 6789 |}.

(** ** The two halves of a rendered instant *)

Definition date_of (t : datetime) : string :=
  (Strftime.padded 4 (year t) ++ "-" ++ Strftime.padded 2 (month t) ++ "-"
     ++ Strftime.padded 2 (day t))%string.

Definition time_of (t : datetime) : string :=
  (Strftime.padded 2 (hour t) ++ ":" ++ Strftime.padded 2 (minute t) ++ ":"
     ++ Strftime.padded 2 (second t) ++ "." ++ Strftime.padded 6 (microsecond t))%string.

(** No character of [s] is the separator. *)
Fixpoint free_of (sep : ascii) (s : string) : bool :=
  match s with
  | EmptyString => true
  | String c s' => negb (Ascii.eqb c sep) && free_of sep s'
  end.

(** A conversion that fills exactly its width and contains no [T]. *)
Definition well_padded (width : nat) (n : N) : bool :=
  Nat.eqb (String.length (Strftime.padded width n)) width
  && free_of "T"%char (Strftime.padded width n).

(** Distinctness of a list of keys, as a test. *)
Fixpoint distinct (ks : list string) : bool :=
  match ks with
  | [] => true
  | k :: ks' => negb (Py.mem k ks') && distinct ks'
  end.

(** ** Sample worlds and requests *)

(** A tracker that returns [tracker_issue] for every id, and a bus that
    rejects every message. *)
Definition bus_down : env :=
  {| jira_url := Some "http://jira";
     search_get := fun _ _ _ => Body (JDict [("issues", JList [])]);
     issue_get := fun _ _ => Body tracker_issue;
     producer_send := fun _ _ => false;
     datetime_now := fun _ => sample_instant |}.

Definition webhook_request : request :=
  {| is_json := true;
     json_body := Some (JDict [("webhookEvent", JStr "jira:issue_updated");
                               ("issue", JDict [("id", JStr "10001")])]);
     x_event_key := Some "jira:issue_updated" |}.

(** A JSON body whose [issue] object has no [id]. *)
Definition request_without_id : request :=
  {| is_json := true;
     json_body := Some (JDict [("issue", JDict [("key", JStr "TES-1")])]);
     x_event_key := None |}.

(** Issue summaries with consecutive ids. *)
Definition summaries (first count : nat) : list json :=
  map (fun i => JDict [("id", JStr (Strftime.decimal (N.of_nat i)))]) (seq first count).

(** The page of a corpus that a search at [start_at] returns. *)
Definition page_of (corpus : list json) (start_at : Z) : list json :=
  firstn 50 (skipn (Z.to_nat start_at) corpus).

(** The tracker holds [corpus]: every search answers with an object
    whose [issues] is the page at the requested offset; nothing is said
    of the other attributes of the answer. *)
Definition serves (E : env) (corpus : list json) : Prop :=
  forall t start_at, exists d,
    search_get E t start_at 50 = Body (JDict d) /\
    Py.lookup "issues" d = Some (JList (page_of corpus start_at)).

(** A tracker over [corpus] that reports a stale [total]. *)
Definition tracker_of (corpus : list json) : env :=
  {| jira_url := Some "http://jira";
     search_get := fun _ start_at max_results =>
       Body (JDict [("startAt", JInt start_at); ("maxResults", JInt max_results);
                    ("total", JInt 3); ("issues", JList (page_of corpus start_at))]);
     issue_get := fun _ _ => Body tracker_issue;
     producer_send := fun _ _ => true;
     datetime_now := fun _ => sample_instant |}.

(** A tracker whose second page is a JSON object without [issues]. *)
Definition malformed_second_page : env :=
  {| jira_url := Some "http://jira";
     search_get := fun _ start_at _ =>
       if (start_at =? 0)%Z then Body (JDict [("issues", JList (summaries 0 50))])
       else Body (JDict []);
     issue_get := fun _ _ => Body tracker_issue;
     producer_send := fun _ _ => true;
     datetime_now := fun _ => sample_instant |}.

(** A tracker with three issues, of which the second cannot be read. *)
Definition second_issue_unreadable : env :=
  {| jira_url := Some "http://jira";
     search_get := fun _ _ _ => Body (JDict [("issues", JList (summaries 1 3))]);
     issue_get := fun _ issue_id =>
       if Py.is_str "2" issue_id then RequestException (HTTPError 404)
       else Body tracker_issue;
     producer_send := fun _ _ => true;
     datetime_now := fun _ => sample_instant |}.

(** The state after [n] more calls that left [events] in the trace. *)
Definition after (st : state) (n : nat) (events : list event) : state :=
  {| calls := calls st + n; trace := trace st ++ events |}.

(** ** When normalisation succeeds *)

(** A comment entry that [rebuild_comment] accepts: an object whose
    [author], when present, is an object. *)
Definition entry_ok (entry : json) : bool :=
  match entry with
  | JDict e =>
      match Py.lookup "author" e with
      | Some author => Py.is_dict author
      | None => true
      end
  | _ => false
  end.

(** A [comments] value the comprehension can walk without raising. *)
Definition comments_ok (comments : json) : bool :=
  match comments with
  | JList l => forallb entry_ok l
  | JDict d => match d with [] => true | _ => false end
  | JStr s => match s with EmptyString => true | _ => false end
  | _ => false
  end.

(** A [comment] field that does not make [filter_field] raise. *)
Definition comment_ok (comment : json) : bool :=
  match comment with
  | JDict d =>
      match Py.lookup "comments" d with
      | Some comments => comments_ok comments
      | None => true
      end
  | _ => true
  end.

Definition fields_ok (fields : items) : bool :=
  forallb (fun kv => if String.eqb (fst kv) "comment" then comment_ok (snd kv) else true)
          fields.

(** An issue on which [filter_relevant_fields] returns. *)
Definition normalizable (issue : json) : bool :=
  match issue with
  | JDict src =>
      match Py.lookup "fields" src with
      | None => true
      | Some (JDict fields) => fields_ok fields
      | Some _ => false
      end
  | _ => false
  end.

(** Keys of distinct-keyed items that pass a test, in order. *)
Definition kept (allowed : list string) (d : items) : items :=
  filter (fun kv => Py.mem (fst kv) allowed) d.

(** An issue as the tracker returns it, with attributes the pipeline
    drops. *)
Definition verbose_creator : items :=
  [("self", JStr "http://jira/rest/api/2/user?username=alice");
   ("name", JStr "alice"); ("displayName", JStr "Alice");
   ("emailAddress", JStr "a@x.com"); ("active", JBool true);
   ("timeZone", JStr "Europe/Berlin")].

Definition verbose_fields : items :=
  [("summary", JStr "Fix bug");
   ("watches", JDict [("watchCount", JInt 1)]);
   ("creator", JDict verbose_creator);
   ("labels", JList [JStr "backend"]);
   ("priority", JDict [("id", JStr "3"); ("name", JStr "Medium")])].

Definition verbose_issue_items : items :=
  [("expand", JStr "renderedFields"); ("id", JStr "10004");
   ("self", JStr "http://jira/rest/api/2/issue/10004");
   ("key", JStr "TES-4"); ("fields", JDict verbose_fields)].

Definition verbose_issue : json := JDict verbose_issue_items.

Definition verbose_issue_normalized : json :=
  JDict [("id", JStr "10004"); ("key", JStr "TES-4");
         ("fields", JDict [
            ("summary", JStr "Fix bug");
            ("creator", JDict [("displayName", JStr "Alice");
                               ("emailAddress", JStr "a@x.com");
                               ("timeZone", JStr "Europe/Berlin")]);
            ("labels", JList [JStr "backend"]);
            ("priority", JDict [("id", JStr "3"); ("name", JStr "Medium")])])].

(** The computation returned rather than raised. *)
Definition returns {A} (r : result A) : bool :=
  match r with Ok _ => true | Raise _ => false end.

(** An issue without [fields], with attributes the pipeline drops. *)
Definition issue_without_fields_items : items :=
  [("expand", JStr "names"); ("id", JStr "1"); ("key", JStr "X")].

(** The four entries [prepare_data_for_pulsar] adds to a record. *)
Definition metadata (jira_url : option string) (now : datetime)
    (event_type key : string) : items :=
  [("timestamp", JStr (timestamp_of now));
   ("date", JStr (Strftime.split_head "T"%char (timestamp_of now)));
   ("event_type", JStr event_type);
   ("url", JStr (format_url jira_url ++ "/browse/" ++ key)%string)].

(** An issue whose key is null. *)
Definition issue_with_null_key_items : items :=
  [("id", JStr "10005"); ("key", JNull)].

(** The event type the handler passes on: the [X-Event-Key] header, or a
    sentinel. *)
Definition event_type_of (req : request) : string :=
  match x_event_key req with Some k => k | None => "Unknown Event" end.

(** A tracker that answers every issue read with 404, and a request
    without the event header. *)
Definition tracker_without_issue : env :=
  {| jira_url := Some "http://jira";
     search_get := fun _ _ _ => Body (JDict [("issues", JList [])]);
     issue_get := fun _ _ => RequestException (HTTPError 404);
     producer_send := fun _ _ => true;
     datetime_now := fun _ => sample_instant |}.

Definition healthy : env :=
  {| jira_url := Some "http://jira";
     search_get := fun _ _ _ => Body (JDict [("issues", JList [])]);
     issue_get := fun _ _ => Body tracker_issue;
     producer_send := fun _ _ => true;
     datetime_now := fun _ => sample_instant |}.

Definition request_without_header : request :=
  {| is_json := true;
     json_body := Some (JDict [("issue", JDict [("id", JStr "10001")])]);
     x_event_key := None |}.

(** ** Pagination in general *)

(** The searches at the offsets [50 * first], [50 * (first + 1)], ... *)
Definition searches (first count : nat) : list event :=
  map (fun j => SearchGet (50 * Z.of_nat j) 50) (seq first count).

(** The tracker answers the first [k] pages of [corpus]. *)
Definition serves_below (E : env) (corpus : list json) (k : nat) : Prop :=
  forall t j, j < k -> exists d,
    search_get E t (50 * Z.of_nat j) 50 = Body (JDict d) /\
    Py.lookup "issues" d = Some (JList (page_of corpus (50 * Z.of_nat j))).

(** Every answer is an object with at least fifty [issues]. *)
Definition always_full (E : env) : Prop :=
  forall t start_at, exists d page,
    search_get E t start_at 50 = Body (JDict d) /\
    Py.lookup "issues" d = Some (JList page) /\
    50 <= List.length page.

(** A tracker that ignores the offset and repeats its first page. *)
Definition repeating_tracker : env :=
  {| jira_url := Some "http://jira";
     search_get := fun _ _ _ => Body (JDict [("issues", JList (summaries 0 50))]);
     issue_get := fun _ _ => Body tracker_issue;
     producer_send := fun _ _ => true;
     datetime_now := fun _ => sample_instant |}.

(** A tracker over [corpus] whose search fails from offset [limit] on. *)
Definition failing_from (limit : Z) (corpus : list json) : env :=
  {| jira_url := Some "http://jira";
     search_get := fun _ start_at _ =>
       if (start_at <? limit)%Z
       then Body (JDict [("issues", JList (page_of corpus start_at))])
       else RequestException ConnectionError;
     issue_get := fun _ _ => Body tracker_issue;
     producer_send := fun _ _ => true;
     datetime_now := fun _ => sample_instant |}.

(** ** Reading a trace *)

(** The issue ids read from the tracker, in order. *)
Fixpoint fetched (events : list event) : list json :=
  match events with
  | [] => []
  | IssueGet issue_id :: rest => issue_id :: fetched rest
  | _ :: rest => fetched rest
  end.

(** The messages handed to the producer, in order. *)
Fixpoint sent (events : list event) : list json :=
  match events with
  | [] => []
  | ProducerSend data :: rest => data :: sent rest
  | _ :: rest => sent rest
  end.

(** The ids of the summaries that have one. *)
Definition ids_of (issues : list json) : list json :=
  flat_map (fun issue => match Py.getitem issue "id" with Ok i => [i] | Raise _ => [] end)
           issues.

(** An answer to an issue read on which the per-issue step does not
    raise: a request exception, an empty body, or an issue that
    normalises and has a string key or none. *)
Definition survivable (answer : http_outcome) : Prop :=
  match answer with
  | RequestException _ => True
  | Body d =>
      Py.truthy d = false \/
      exists n k, filter_relevant_fields d = Ok n /\
                  Py.get d "key" (JStr "") = Ok (JStr k)
  end.

(** A summary with an id the tracker answers survivably at any time. *)
Definition attemptable (E : env) (issue : json) : Prop :=
  exists i, Py.getitem issue "id" = Ok i /\ forall t, survivable (issue_get E t i).

(** A tracker that knows no issue at all. *)
Definition empty_tracker : env := tracker_of [].

(** A tracker whose issues carry a null key. *)
Definition tracker_with_null_keys : env :=
  {| jira_url := Some "http://jira";
     search_get := fun _ _ _ => Body (JDict [("issues", JList (summaries 1 3))]);
     issue_get := fun _ _ => Body (JDict issue_with_null_key_items);
     producer_send := fun _ _ => true;
     datetime_now := fun _ => sample_instant |}.

(** A tracker with three issues whose answer for the second is a JSON
    array of error messages, delivered with status 200. *)
Definition malformed_issue_body : json := JList [JStr "Issue Does Not Exist"].

Definition second_issue_malformed : env :=
  {| jira_url := Some "http://jira";
     search_get := fun _ _ _ => Body (JDict [("issues", JList (summaries 1 3))]);
     issue_get := fun _ issue_id =>
       if Py.is_str "2" issue_id then Body malformed_issue_body
       else Body tracker_issue;
     producer_send := fun _ _ => true;
     datetime_now := fun _ => sample_instant |}.

(** * Properties *)

(** ** Stores, lookups and comprehensions *)

Lemma mem_In (k : string) (s : list string) : Py.mem k s = true <-> In k s.
Proof.
  unfold Py.mem. rewrite existsb_exists. split.
  - intros [x [Hin Heq]]. apply String.eqb_eq in Heq. now subst.
  - intros Hin. exists k. split; [assumption | apply String.eqb_refl].
Qed.

Lemma mem_cons (k k' : string) (s : list string) :
  Py.mem k (k' :: s) = String.eqb k k' || Py.mem k s.
Proof. reflexivity. Qed.

Lemma mem_not_In (k : string) (s : list string) : Py.mem k s = false <-> ~ In k s.
Proof.
  rewrite <- mem_In. destruct (Py.mem k s); split; congruence.
Qed.

Lemma lookup_In (k : string) (v : json) (d : items) :
  Py.lookup k d = Some v -> In (k, v) d.
Proof.
  induction d as [|[k' v'] d IH]; simpl; [discriminate|].
  destruct (String.eqb_spec k k') as [->|Hne].
  - intros [= ->]. now left.
  - intros H. right. auto.
Qed.

Lemma lookup_None (k : string) (d : items) :
  Py.lookup k d = None <-> ~ In k (keys d).
Proof.
  induction d as [|[k' v'] d IH]; simpl.
  - tauto.
  - destruct (String.eqb_spec k k') as [->|Hne].
    + split; [discriminate | intros H; exfalso; apply H; now left].
    + rewrite IH. split; intros H; [intros [Heq|Hin]; [congruence | tauto] | tauto].
Qed.


Lemma set_fresh (k : string) (v : json) (d : items) :
  ~ In k (keys d) -> Py.set k v d = d ++ [(k, v)].
Proof.
  induction d as [|[k' v'] d IH]; simpl; [reflexivity|].
  intros H. destruct (String.eqb_spec k k') as [->|Hne].
  - exfalso. apply H. now left.
  - f_equal. apply IH. tauto.
Qed.

Lemma set_present (k : string) (v : json) (d : items) :
  Py.lookup k d = Some v -> Py.set k v d = d.
Proof.
  induction d as [|[k' v'] d IH]; simpl; [discriminate|].
  destruct (String.eqb_spec k k') as [->|Hne].
  - now intros [= ->].
  - intros H. f_equal. auto.
Qed.

Lemma keys_set (k : string) (v : json) (d : items) :
  keys (Py.set k v d) = if Py.mem k (keys d) then keys d else keys d ++ [k].
Proof.
  induction d as [|[k' v'] d IH]; simpl; [reflexivity|].
  rewrite mem_cons.
  destruct (String.eqb_spec k k') as [->|Hne]; simpl; [reflexivity|].
  rewrite IH. unfold keys. now destruct (Py.mem k (map fst d)).
Qed.

Lemma In_keys_set (k k0 : string) (v : json) (d : items) :
  In k (keys (Py.set k0 v d)) <-> k = k0 \/ In k (keys d).
Proof.
  rewrite keys_set. destruct (Py.mem k0 (keys d)) eqn:Hm.
  - apply mem_In in Hm. split; [tauto | intros [->|H]; assumption].
  - rewrite in_app_iff. simpl. split; intros H; intuition congruence.
Qed.

Lemma set_unique (k : string) (v : json) (d : items) :
  unique_keys d -> unique_keys (Py.set k v d).
Proof.
  unfold unique_keys. rewrite keys_set. destruct (Py.mem k (keys d)) eqn:Hm; [tauto|].
  apply mem_not_In in Hm. intros Hnd.
  apply NoDup_app; [assumption | repeat constructor; simpl; tauto |].
  intros x Hx [<-|[]]. contradiction.
Qed.

Lemma lookup_set_same (k : string) (v : json) (d : items) :
  Py.lookup k (Py.set k v d) = Some v.
Proof.
  induction d as [|[k' v'] d IH]; simpl.
  - now rewrite String.eqb_refl.
  - destruct (String.eqb_spec k k') as [->|Hne]; simpl.
    + now rewrite String.eqb_refl.
    + destruct (String.eqb_spec k k'); [contradiction | assumption].
Qed.

Lemma lookup_set_other (k k0 : string) (v : json) (d : items) :
  k <> k0 -> Py.lookup k (Py.set k0 v d) = Py.lookup k d.
Proof.
  intros Hne. induction d as [|[k' v'] d IH]; simpl.
  - destruct (String.eqb_spec k k0); [contradiction | reflexivity].
  - destruct (String.eqb_spec k0 k') as [->|Hne']; simpl.
    + destruct (String.eqb_spec k k'); [contradiction | reflexivity].
    + now rewrite IH.
Qed.

Lemma In_set (k k0 : string) (v v0 : json) (d : items) :
  In (k, v) (Py.set k0 v0 d) -> (k, v) = (k0, v0) \/ In (k, v) d.
Proof.
  induction d as [|[k' v'] d IH]; simpl.
  - intros [H|[]]. now left.
  - destruct (String.eqb_spec k0 k') as [->|Hne]; simpl.
    + intros [H|H]; [left; congruence | tauto].
    + intros [H|H]; [tauto | apply IH in H; tauto].
Qed.

Lemma distinct_unique (d : items) : distinct (keys d) = true -> unique_keys d.
Proof.
  unfold unique_keys. induction (keys d) as [|k ks IH]; simpl; intros H; constructor.
  - apply andb_prop in H. destruct H as [H _].
    apply negb_true_iff, mem_not_In in H. assumption.
  - apply andb_prop in H. tauto.
Qed.

Section Comprehension.

Variable keep : string -> bool.

Lemma comprehension_from_In (src acc : items) (k : string) (v : json) :
  In (k, v) (fold_left (Py.store_if keep) src acc) ->
  In (k, v) acc \/ (keep k = true /\ In (k, v) src).
Proof.
  revert acc. induction src as [|[k0 v0] src IH]; simpl; intros acc H; [tauto|].
  apply IH in H. destruct H as [H|[Hk H]]; [|tauto].
  unfold Py.store_if in H. simpl in H. destruct (keep k0) eqn:Hk0; [|tauto].
  apply In_set in H. destruct H as [[= -> ->]|H]; tauto.
Qed.

Lemma comprehension_from_unique (src acc : items) :
  unique_keys acc -> unique_keys (fold_left (Py.store_if keep) src acc).
Proof.
  revert acc. induction src as [|[k0 v0] src IH]; simpl; intros acc H; [assumption|].
  apply IH. unfold Py.store_if. simpl. destruct (keep k0); [now apply set_unique | assumption].
Qed.

Lemma comprehension_from_filter (src acc : items) :
  unique_keys (acc ++ src) ->
  fold_left (Py.store_if keep) src acc = acc ++ filter (fun kv => keep (fst kv)) src.
Proof.
  revert acc. induction src as [|[k0 v0] src IH]; simpl; intros acc H.
  - now rewrite app_nil_r.
  - unfold Py.store_if at 2. simpl. destruct (keep k0).
    + assert (Hfresh : ~ In k0 (keys acc)).
      { unfold unique_keys, keys in H. rewrite map_app in H. simpl in H.
        apply NoDup_remove_2 in H. rewrite in_app_iff in H. tauto. }
      rewrite (set_fresh _ _ _ Hfresh). rewrite IH.
      * now rewrite <- app_assoc.
      * now rewrite <- app_assoc.
    + apply IH. unfold unique_keys, keys in *. rewrite map_app in *. simpl in H.
      now apply NoDup_remove_1 in H.
Qed.

End Comprehension.

Lemma comprehension_In (keep : string -> bool) (src : items) (k : string) (v : json) :
  In (k, v) (Py.comprehension keep src) -> keep k = true /\ In (k, v) src.
Proof.
  intros H. apply comprehension_from_In in H. simpl in H. tauto.
Qed.

Lemma comprehension_keys (keep : string -> bool) (src : items) (k : string) :
  In k (keys (Py.comprehension keep src)) -> keep k = true /\ In k (keys src).
Proof.
  unfold keys. rewrite in_map_iff. intros [[k' v] [Hk Hin]]. simpl in Hk. subst k'.
  apply comprehension_In in Hin. split; [tauto|].
  apply in_map_iff. exists (k, v). tauto.
Qed.

Lemma comprehension_unique (keep : string -> bool) (src : items) :
  unique_keys (Py.comprehension keep src).
Proof.
  apply comprehension_from_unique. constructor.
Qed.

Lemma comprehension_filter (keep : string -> bool) (src : items) :
  unique_keys src ->
  Py.comprehension keep src = filter (fun kv => keep (fst kv)) src.
Proof.
  intros H. unfold Py.comprehension. now rewrite comprehension_from_filter.
Qed.

Lemma comprehension_fixed (keep : string -> bool) (d : items) :
  unique_keys d -> (forall k, In k (keys d) -> keep k = true) ->
  Py.comprehension keep d = d.
Proof.
  intros Hu Hk. rewrite comprehension_filter by assumption.
  apply forallb_filter_id. apply forallb_forall. intros [k v] Hin. simpl.
  apply Hk. change k with (fst (k, v)). now apply in_map.
Qed.

Lemma comprehension_idempotent (keep : string -> bool) (src : items) :
  Py.comprehension keep (Py.comprehension keep src) = Py.comprehension keep src.
Proof.
  apply comprehension_fixed; [apply comprehension_unique|].
  intros k H. now apply comprehension_keys in H.
Qed.

Lemma lookup_filter (keep : string -> bool) (k : string) (d : items) :
  Py.lookup k (filter (fun kv => keep (fst kv)) d) =
  if keep k then Py.lookup k d else None.
Proof.
  induction d as [|[k' v'] d IH]; simpl; [now destruct (keep k)|].
  destruct (keep k') eqn:Hk'; simpl.
  - destruct (String.eqb_spec k k') as [->|Hne]; [now rewrite Hk' | assumption].
  - destruct (String.eqb_spec k k') as [->|Hne]; [now rewrite IH, Hk' | assumption].
Qed.

(** ** The per-field step and the loop over [fields] *)

Lemma rmap_fixed {A} (f : A -> result A) (l : list A) :
  Forall (fun a => f a = Ok a) l -> rmap f l = Ok l.
Proof.
  induction 1 as [|a l Ha _ IH]; simpl; [reflexivity|].
  now rewrite Ha, IH.
Qed.

Lemma rmap_Forall {A B} (f : A -> result B) (P : B -> Prop) (l : list A) (l' : list B) :
  (forall a b, f a = Ok b -> P b) -> rmap f l = Ok l' -> Forall P l'.
Proof.
  intros Hf. revert l'. induction l as [|a l IH]; simpl; intros l'.
  - intros [= <-]. constructor.
  - destruct (f a) as [b|] eqn:Hb; simpl; [|discriminate].
    destruct (rmap f l) as [bs|]; simpl; [|discriminate].
    intros [= <-]. constructor; eauto.
Qed.


(** A rebuilt comment has the fixed four-key shape, whatever the source
    entry held. *)
Lemma rebuild_comment_shape (c c' : json) :
  rebuild_comment c = Ok c' ->
  exists displayName emailAddress body created updated,
    c' = JDict [("author", JDict [("displayName", displayName);
                                  ("emailAddress", emailAddress)]);
                ("body", body); ("created", created); ("updated", updated)] /\
    Py.get c "body" JNull = Ok body /\
    Py.get c "created" JNull = Ok created /\
    Py.get c "updated" JNull = Ok updated /\
    (exists author, Py.get c "author" (JDict []) = Ok author /\
                    Py.get author "displayName" JNull = Ok displayName /\
                    Py.get author "emailAddress" JNull = Ok emailAddress).
Proof.
  unfold rebuild_comment. intros H.
  destruct (Py.get c "author" (JDict [])) as [a|] eqn:Ha; simpl in H; [|discriminate].
  destruct (Py.get a "displayName" JNull) as [dn|] eqn:Hdn; simpl in H; [|discriminate].
  destruct (Py.get a "emailAddress" JNull) as [em|] eqn:Hem; simpl in H; [|discriminate].
  destruct (Py.get c "body" JNull) as [b|] eqn:Hb; simpl in H; [|discriminate].
  destruct (Py.get c "created" JNull) as [cr|] eqn:Hcr; simpl in H; [|discriminate].
  destruct (Py.get c "updated" JNull) as [up|] eqn:Hup; simpl in H; [|discriminate].
  injection H as <-. exists dn, em, b, cr, up. repeat split; try reflexivity. eauto.
Qed.

Lemma rebuild_comment_fixed (c c' : json) :
  rebuild_comment c = Ok c' -> rebuild_comment c' = Ok c'.
Proof.
  intros H. apply rebuild_comment_shape in H.
  destruct H as (dn & em & b & cr & up & -> & _). reflexivity.
Qed.

(** The three outcomes of [filter_field]. *)
Lemma filter_field_cases (k : string) (v v' : json) :
  filter_field k v = Ok v' ->
  (exists ws d, nested_whitelist k = Some ws /\ v = JDict d /\
                v' = JDict (Py.comprehension (fun k' => Py.mem k' ws) d)) \/
  (exists d seq comments, k = "comment" /\ v = JDict d /\
                Py.iter (match Py.lookup "comments" d with
                         | Some s => s | None => JList [] end) = Ok seq /\
                rmap rebuild_comment seq = Ok comments /\
                v' = JDict [("comments", JList comments)]) \/
  (v' = v /\ (Py.is_dict v = false \/ (nested_whitelist k = None /\ k <> "comment"))).
Proof.
  unfold filter_field. destruct v as [| | | | |l|d]; simpl;
    try (intros [= <-]; right; right; split; [reflexivity | now left]);
    try (rewrite andb_false_r; intros [= <-]; right; right; split; [reflexivity | now left]).
  destruct (nested_whitelist k) as [ws|] eqn:Hws.
  - simpl. intros [= <-]. left. now exists ws, d.
  - rewrite andb_true_r. destruct (String.eqb_spec k "comment") as [->|Hne].
    + destruct (Py.iter _) as [seq|] eqn:Hseq; simpl; [|discriminate].
      destruct (rmap rebuild_comment seq) as [cs|] eqn:Hcs; simpl; [|discriminate].
      intros [= <-]. right. left. now exists d, seq, cs.
    + intros [= <-]. right. right. split; [reflexivity | now right].
Qed.

Lemma filter_field_fixed (k : string) (v v' : json) :
  filter_field k v = Ok v' -> filter_field k v' = Ok v'.
Proof.
  intros H. destruct (filter_field_cases _ _ _ H)
    as [(ws & d & Hws & -> & ->) | [(d & seq & cs & -> & -> & Hseq & Hcs & ->) | [-> _]]].
  - unfold filter_field. simpl. rewrite Hws. simpl.
    now rewrite comprehension_idempotent.
  - unfold filter_field. simpl.
    rewrite rmap_fixed; [reflexivity|].
    eapply rmap_Forall; [|exact Hcs]. intros a b. apply rebuild_comment_fixed.
  - assumption.
Qed.

(** Only the comment branch can raise. *)
Lemma filter_field_total (k : string) (v : json) :
  k <> "comment" \/ Py.is_dict v = false -> exists v', filter_field k v = Ok v'.
Proof.
  intros H. unfold filter_field.
  destruct (Py.is_dict v) eqn:Hd.
  - destruct (nested_whitelist k) as [ws|].
    + destruct v; try discriminate. simpl. eauto.
    + destruct (String.eqb_spec k "comment") as [->|Hne]; simpl; [|eauto].
      destruct H; [contradiction | discriminate].
  - rewrite andb_false_r. eauto.
Qed.

Lemma filter_fields_loop_entries (src acc out : items) :
  filter_fields_loop src acc = Ok out ->
  forall k v', In (k, v') out ->
    In (k, v') acc \/
    (Py.mem k relevant_subfields = true /\
     exists v, In (k, v) src /\ filter_field k v = Ok v').
Proof.
  revert acc. induction src as [|[k0 v0] src IH]; simpl; intros acc H k v' Hin.
  - injection H as <-. now left.
  - destruct (Py.mem k0 relevant_subfields) eqn:Hk0.
    + destruct (filter_field k0 v0) as [w|] eqn:Hw; simpl in H; [|discriminate].
      destruct (IH _ H _ _ Hin) as [Hacc|(Hm & v & Hv & Hf)].
      * apply In_set in Hacc. destruct Hacc as [[= -> ->]|Hacc]; [|now left].
        right. split; [assumption|]. exists v0. split; [now left | assumption].
      * right. split; [assumption|]. exists v. split; [now right | assumption].
    + destruct (IH _ H _ _ Hin) as [Hacc|(Hm & v & Hv & Hf)]; [now left|].
      right. split; [assumption|]. exists v. split; [now right | assumption].
Qed.

Lemma filter_fields_loop_unique (src acc out : items) :
  filter_fields_loop src acc = Ok out -> unique_keys acc -> unique_keys out.
Proof.
  revert acc. induction src as [|[k0 v0] src IH]; simpl; intros acc H Hu.
  - now injection H as <-.
  - destruct (Py.mem k0 relevant_subfields).
    + destruct (filter_field k0 v0) as [w|]; simpl in H; [|discriminate].
      eapply IH; [exact H | now apply set_unique].
    + eauto.
Qed.

Lemma filter_fields_loop_fixed (src acc : items) :
  unique_keys (acc ++ src) -> Forall settled src ->
  filter_fields_loop src acc = Ok (acc ++ src).
Proof.
  revert acc. induction src as [|[k0 v0] src IH]; simpl; intros acc Hu Hs.
  - now rewrite app_nil_r.
  - inversion Hs as [|? ? [Hm Hf] Hs']; subst. simpl in Hm, Hf.
    rewrite Hm, Hf. simpl.
    assert (Hfresh : ~ In k0 (keys acc)).
    { unfold unique_keys, keys in Hu. rewrite map_app in Hu. simpl in Hu.
      apply NoDup_remove_2 in Hu. rewrite in_app_iff in Hu. tauto. }
    rewrite (set_fresh _ _ _ Hfresh), IH; rewrite <- ?app_assoc; auto.
Qed.

Lemma filter_fields_loop_untouched (src acc out : items) (k : string) :
  filter_fields_loop src acc = Ok out -> ~ In k (keys src) ->
  Py.lookup k out = Py.lookup k acc.
Proof.
  revert acc. induction src as [|[k0 v0] src IH]; simpl; intros acc H Hk.
  - now injection H as <-.
  - destruct (Py.mem k0 relevant_subfields).
    + destruct (filter_field k0 v0) as [w|]; simpl in H; [|discriminate].
      rewrite (IH _ H) by tauto. apply lookup_set_other. intros ->. tauto.
    + apply (IH _ H). tauto.
Qed.

(** With distinct source keys, a whitelisted field lands in the output
    as its filtered value. *)
Lemma filter_fields_loop_lookup (src acc out : items) (k : string) (v : json) :
  filter_fields_loop src acc = Ok out -> unique_keys src ->
  Py.lookup k src = Some v -> Py.mem k relevant_subfields = true ->
  exists v', filter_field k v = Ok v' /\ Py.lookup k out = Some v'.
Proof.
  revert acc. induction src as [|[k0 v0] src IH]; simpl; intros acc H Hu Hl Hm;
    [discriminate|].
  inversion Hu as [|? ? Hfresh Hu']; subst.
  destruct (String.eqb_spec k k0) as [->|Hne].
  - injection Hl as ->. rewrite Hm in H.
    destruct (filter_field k0 v) as [w|]; simpl in H; [|discriminate].
    exists w. split; [reflexivity|].
    rewrite (filter_fields_loop_untouched _ _ _ _ H Hfresh). apply lookup_set_same.
  - destruct (Py.mem k0 relevant_subfields).
    + destruct (filter_field k0 v0) as [w|]; simpl in H; [|discriminate]. eauto.
    + eauto.
Qed.


(** ** Inversion of a successful [filter_relevant_fields] *)

Lemma filter_relevant_fields_inv (issue n : json) :
  filter_relevant_fields issue = Ok n ->
  exists src, issue = JDict src /\
    ((Py.lookup "fields" (top_level src) = None /\ n = JDict (top_level src)) \/
     (exists fsrc fout,
         Py.lookup "fields" (top_level src) = Some (JDict fsrc) /\
         filter_fields_loop fsrc [] = Ok fout /\
         n = JDict (Py.set "fields" (JDict fout) (top_level src)))).
Proof.
  unfold filter_relevant_fields. destruct issue as [| | | | | |src]; simpl; try discriminate.
  fold (top_level src). intros H. exists src. split; [reflexivity|].
  destruct (Py.mem "fields" (keys (top_level src))) eqn:Hm.
  - destruct (Py.lookup "fields" (top_level src)) as [fv|] eqn:Hl.
    + simpl in H. destruct fv as [| | | | | |fsrc]; simpl in H; try discriminate.
      destruct (filter_fields_loop fsrc []) as [fout|] eqn:Hloop; simpl in H; [|discriminate].
      injection H as <-. right. now exists fsrc, fout.
    + apply mem_In in Hm. apply lookup_None in Hl. contradiction.
  - injection H as <-. left. split; [|reflexivity].
    apply lookup_None. now apply mem_not_In.
Qed.

Lemma filter_relevant_fields_dict (src : items) :
  filter_relevant_fields (JDict src) =
  if Py.mem "fields" (keys (top_level src)) then
    fields <- Py.getitem (JDict (top_level src)) "fields" ;;
    fits <- Py.dict_items fields ;;
    filtered_fields <- filter_fields_loop fits [] ;;
    Ok (JDict (Py.set "fields" (JDict filtered_fields) (top_level src)))
  else Ok (JDict (top_level src)).
Proof. reflexivity. Qed.

Lemma top_level_fixed (d : items) :
  unique_keys d -> (forall k, In k (keys d) -> Py.mem k relevant_fields = true) ->
  top_level d = d.
Proof. apply comprehension_fixed. Qed.

Lemma filter_relevant_fields_fixed (issue n : json) :
  filter_relevant_fields issue = Ok n -> filter_relevant_fields n = Ok n.
Proof.
  intros H. destruct (filter_relevant_fields_inv _ _ H) as (src & -> & Hcases).
  assert (Hkeys : forall k, In k (keys (top_level src)) -> Py.mem k relevant_fields = true).
  { intros k Hk. now apply comprehension_keys in Hk. }
  destruct Hcases as [[Hnone ->] | (fsrc & fout & Hsome & Hloop & ->)];
    rewrite filter_relevant_fields_dict.
  - rewrite top_level_fixed; [|apply comprehension_unique|assumption].
    apply lookup_None, mem_not_In in Hnone. now rewrite Hnone.
  - rewrite top_level_fixed.
    + assert (Hm : Py.mem "fields" (keys (Py.set "fields" (JDict fout) (top_level src))) = true).
      { apply mem_In, In_keys_set. now left. }
      rewrite Hm. simpl. rewrite lookup_set_same. simpl.
      rewrite (filter_fields_loop_fixed fout []).
      * simpl. f_equal. f_equal. apply set_present, lookup_set_same.
      * simpl. eapply filter_fields_loop_unique; [exact Hloop | constructor].
      * apply Forall_forall. intros [k v'] Hin.
        destruct (filter_fields_loop_entries _ _ _ Hloop _ _ Hin) as [[]|(Hmem & v & _ & Hf)].
        split; simpl; [assumption | now apply filter_field_fixed in Hf].
    + apply set_unique, comprehension_unique.
    + intros k Hk. apply In_keys_set in Hk. destruct Hk as [->|Hk]; [reflexivity | auto].
Qed.

(** C9. Normalisation is idempotent: normalising the result of a
    normalisation gives that result again; a raw issue on which
    normalisation raises makes both sides raise alike. *)
Theorem normalize_idempotent (r : json) :
  (n <- filter_relevant_fields r ;; filter_relevant_fields n)
  = filter_relevant_fields r.
Proof.
  destruct (filter_relevant_fields r) as [n|e] eqn:H; simpl; [|reflexivity].
  now apply filter_relevant_fields_fixed in H.
Qed.

(** ** What the whitelists do and do not reach *)

Lemma statusCategory_not_a_subfield :
  Py.mem "statusCategory" relevant_subfields = false.
Proof. reflexivity. Qed.

(** [status] has no entry in [relevant_nested_fields]: it is stored as it
    is, whatever it contains. *)
Lemma status_copied_verbatim (v : json) : filter_field "status" v = Ok v.
Proof.
  unfold filter_field. destruct (Py.is_dict v); reflexivity.
Qed.

(** The levels the whitelists do reach: top-level keys, the keys of
    [fields], and the keys of a pruned sub-object stored under [fields]. *)
Lemma whitelist_levels (issue : json) (out : items) :
  filter_relevant_fields issue = Ok (JDict out) ->
  (forall k, In k (keys out) -> In k relevant_fields) /\
  (forall f, Py.lookup "fields" out = Some f ->
     exists fout, f = JDict fout /\
       (forall k, In k (keys fout) -> In k relevant_subfields) /\
       (forall k ws sub, nested_whitelist k = Some ws ->
          Py.lookup k fout = Some (JDict sub) ->
          forall k', In k' (keys sub) -> In k' ws)).
Proof.
  intros H. destruct (filter_relevant_fields_inv _ _ H) as (src & -> & Hcases).
  assert (Htop : forall k, In k (keys (top_level src)) -> In k relevant_fields).
  { intros k Hk. apply comprehension_keys in Hk. now apply mem_In. }
  destruct Hcases as [[Hnone [= ->]] | (fsrc & fout & Hsome & Hloop & [= ->])].
  - split; [assumption|]. intros f Hf. congruence.
  - split.
    + intros k Hk. apply In_keys_set in Hk. destruct Hk as [->|Hk]; [|auto].
      simpl. tauto.
    + intros f Hf. rewrite lookup_set_same in Hf. injection Hf as <-.
      exists fout. split; [reflexivity|]. split.
      * intros k Hk. apply in_map_iff in Hk. destruct Hk as ([k1 v'] & <- & Hin).
        destruct (filter_fields_loop_entries _ _ _ Hloop _ _ Hin) as [[]|(Hm & _)].
        now apply mem_In.
      * intros k ws sub Hws Hl k' Hk'. apply lookup_In in Hl.
        destruct (filter_fields_loop_entries _ _ _ Hloop _ _ Hl) as [[]|(_ & v & _ & Hf)].
        destruct (filter_field_cases _ _ _ Hf)
          as [(ws' & d & Hws' & _ & Hsub) | [(d & seq & cs & Hk & _) | [Hv [Hd|[Hn _]]]]].
        -- injection Hsub as ->. apply comprehension_keys in Hk'. apply mem_In.
           replace ws with ws' by congruence. tauto.
        -- subst k. discriminate.
        -- subst v. discriminate.
        -- congruence.
Qed.

(** C2. On the tracker's own issue shape the status category leaves
    normalisation with its [self] and [id] attributes: [status] is copied
    as it is, and the [statusCategory] entry of the nested whitelist is
    never consulted. *)
Theorem status_category_not_pruned :
  exists n,
    filter_relevant_fields tracker_issue = Ok n /\
    at_path ["fields"; "status"; "statusCategory"] n = Some tracker_status_category /\
    at_path ["fields"; "status"; "statusCategory"; "self"] n
      = Some (JStr "http://jira/rest/api/2/statuscategory/2") /\
    nested_whitelist "statusCategory" = Some ["key"; "name"; "colorName"] /\
    Py.mem "self" ["key"; "name"; "colorName"] = false.
Proof.
  eexists. repeat split; reflexivity.
Qed.

(** ** Absent attributes and the [comment] field *)






Lemma top_level_lookup_fields (src : items) :
  unique_keys src -> Py.lookup "fields" (top_level src) = Py.lookup "fields" src.
Proof.
  intros Hu. unfold top_level. rewrite comprehension_filter by assumption.
  now rewrite (lookup_filter (fun k => Py.mem k relevant_fields)).
Qed.

(** With distinct keys, normalising an issue whose [fields] is an object
    comes down to the loop over those fields. *)
Lemma filter_relevant_fields_with_fields (src fsrc : items) :
  unique_keys src -> Py.lookup "fields" src = Some (JDict fsrc) ->
  filter_relevant_fields (JDict src) =
  (fout <- filter_fields_loop fsrc [] ;;
   Ok (JDict (Py.set "fields" (JDict fout) (top_level src)))).
Proof.
  intros Hu Hf. rewrite filter_relevant_fields_dict.
  rewrite <- top_level_lookup_fields in Hf by assumption.
  assert (Hm : Py.mem "fields" (keys (top_level src)) = true).
  { apply mem_In. apply lookup_In in Hf.
    apply in_map_iff. now exists ("fields", JDict fsrc). }
  rewrite Hm. simpl. now rewrite Hf.
Qed.

Lemma at_path_fields (k : string) (fout top : items) :
  at_path ["fields"; k] (JDict (Py.set "fields" (JDict fout) top)) = Py.lookup k fout.
Proof.
  simpl. rewrite lookup_set_same. now destruct (Py.lookup k fout).
Qed.



(** ** Rendering the captured instant *)

Lemma string_app_assoc (a b c : string) : ((a ++ b) ++ c = a ++ (b ++ c))%string.
Proof.
  induction a as [|x a IH]; simpl; [reflexivity | now rewrite IH].
Qed.

Lemma string_length_app (a b : string) :
  String.length (a ++ b)%string = String.length a + String.length b.
Proof.
  induction a as [|x a IH]; simpl; [reflexivity | now rewrite IH].
Qed.

Lemma free_of_app (sep : ascii) (a b : string) :
  free_of sep (a ++ b)%string = free_of sep a && free_of sep b.
Proof.
  induction a as [|x a IH]; simpl; [reflexivity|].
  now rewrite IH, andb_assoc.
Qed.

Lemma split_head_app (sep : ascii) (a b : string) :
  free_of sep a = true ->
  Strftime.split_head sep (a ++ b)%string = (a ++ Strftime.split_head sep b)%string.
Proof.
  induction a as [|x a IH]; simpl; [reflexivity|].
  intros H. apply andb_prop in H. destruct H as [Hx Ha].
  destruct (Ascii.eqb x sep); [discriminate|]. now rewrite IH.
Qed.

Lemma substring_0_app (a b : string) (n : nat) :
  String.length a <= n ->
  substring 0 n (a ++ b)%string = (a ++ substring 0 (n - String.length a) b)%string.
Proof.
  revert n. induction a as [|x a IH]; simpl; intros n Hn.
  - now rewrite Nat.sub_0_r.
  - destruct n as [|n]; [lia|]. simpl. rewrite IH by lia. reflexivity.
Qed.

Lemma substring_0_prefix (a b : string) :
  substring 0 (String.length a) (a ++ b)%string = a.
Proof.
  induction a as [|x a IH]; simpl.
  - now destruct b.
  - now rewrite IH.
Qed.

Lemma checked_range (P : N -> bool) (lo len : N) :
  forallb P (map (fun i => lo + N.of_nat i)%N (seq 0 (N.to_nat len))) = true ->
  forall n, (lo <= n < lo + len)%N -> P n = true.
Proof.
  intros H n Hn. rewrite forallb_forall in H. apply H.
  apply in_map_iff. exists (N.to_nat (n - lo)). split; [lia|].
  apply in_seq. lia.
Qed.

Lemma year_well_padded (y : N) :
  (1000 <= y <= 9999)%N -> well_padded 4 y = true.
Proof.
  intros H. apply (checked_range (well_padded 4) 1000 9000); [vm_compute; reflexivity | lia].
Qed.

Lemma two_digits_well_padded (n : N) : (n < 100)%N -> well_padded 2 n = true.
Proof.
  intros H. apply (checked_range (well_padded 2) 0 100); [vm_compute; reflexivity | lia].
Qed.

Lemma well_padded_inv (w : nat) (n : N) :
  well_padded w n = true ->
  String.length (Strftime.padded w n) = w /\ free_of "T"%char (Strftime.padded w n) = true.
Proof.
  unfold well_padded. intros H. apply andb_prop in H. destruct H as [Hl Hf].
  apply Nat.eqb_eq in Hl. tauto.
Qed.

Lemma strftime_parts (t : datetime) :
  Strftime.strftime t = (date_of t ++ "T" ++ time_of t)%string.
Proof.
  unfold Strftime.strftime, date_of, time_of.
  now rewrite !string_app_assoc.
Qed.

Lemma date_of_shape (t : datetime) :
  valid_datetime t ->
  String.length (date_of t) = 10 /\ free_of "T"%char (date_of t) = true.
Proof.
  intros (Hy & Hm & Hd & _).
  destruct (well_padded_inv _ _ (year_well_padded _ Hy)) as [Ly Fy].
  destruct (well_padded_inv 2 (month t)) as [Lm Fm]; [apply two_digits_well_padded; lia|].
  destruct (well_padded_inv 2 (day t)) as [Ld Fd]; [apply two_digits_well_padded; lia|].
  unfold date_of. rewrite !string_length_app, !free_of_app, Ly, Lm, Ld, Fy, Fm, Fd.
  split; reflexivity.
Qed.

Lemma time_of_length (t : datetime) : 3 <= String.length (time_of t).
Proof.
  unfold time_of. rewrite !string_length_app. simpl. lia.
Qed.

(** The timestamp is the date, a [T], and a remainder. *)
Lemma timestamp_of_parts (now : datetime) :
  valid_datetime now ->
  exists rest, timestamp_of now = (date_of now ++ String "T"%char rest)%string.
Proof.
  intros Hv. destruct (date_of_shape _ Hv) as [Hlen _].
  pose proof (time_of_length now) as Ht.
  unfold timestamp_of, Strftime.drop_last3. rewrite strftime_parts.
  rewrite substring_0_app by (rewrite string_length_app; simpl; lia).
  rewrite string_length_app, Hlen. simpl String.length.
  replace (10 + S (String.length (time_of now)) - 3 - 10)
    with (S (String.length (time_of now) - 3)) by lia.
  simpl. rewrite string_app_assoc. simpl. eauto.
Qed.

Lemma timestamp_date (now : datetime) :
  valid_datetime now ->
  Strftime.split_head "T"%char (timestamp_of now) = date_of now /\
  substring 0 10 (timestamp_of now) = date_of now.
Proof.
  intros Hv. destruct (date_of_shape _ Hv) as [Hlen Hfree].
  destruct (timestamp_of_parts _ Hv) as [rest ->]. split.
  - rewrite split_head_app by assumption. simpl.
    clear. induction (date_of now) as [|x a IH]; simpl; [reflexivity | now rewrite IH].
  - rewrite <- Hlen. apply substring_0_prefix.
Qed.

(** ** The envelope *)

Lemma filter_relevant_fields_dict_result (issue n : json) :
  filter_relevant_fields issue = Ok n -> exists d, n = JDict d.
Proof.
  intros H. destruct (filter_relevant_fields_inv _ _ H) as (src & _ & [[_ ->]|(? & ? & _ & _ & ->)]);
    eauto.
Qed.

(** When normalisation succeeds and the key is a string (or absent, read
    as the empty string), the envelope is the normalised record followed
    by the four metadata stores. *)
Lemma prepare_data_for_pulsar_ok (jira_url : option string) (now : datetime)
    (issue n : json) (event_type k : string) :
  filter_relevant_fields issue = Ok n ->
  Py.get issue "key" (JStr "") = Ok (JStr k) ->
  exists base,
    n = JDict base /\
    prepare_data_for_pulsar jira_url now issue event_type =
    Ok (JDict
          (Py.set "url" (JStr (format_url jira_url ++ "/browse/" ++ k)%string)
             (Py.set "event_type" (JStr event_type)
                (Py.set "date" (JStr (Strftime.split_head "T"%char (timestamp_of now)))
                   (Py.set "timestamp" (JStr (timestamp_of now)) base))))).
Proof.
  intros Hn Hk. destruct (filter_relevant_fields_dict_result _ _ Hn) as [base ->].
  exists base. split; [reflexivity|].
  unfold prepare_data_for_pulsar. rewrite Hn. cbn [rbind Py.dict_items].
  rewrite Hk. cbn [rbind str_concat]. now rewrite string_app_assoc.
Qed.

(** C10. For a captured instant and an issue that normalises, with a
    string key or none, the envelope is built without raising; its [date]
    is the first ten characters of its [timestamp] (what lies left of the
    [T]), and its [url] is the base, [/browse/] and the key, an absent key
    counting as empty. *)
Theorem envelope_date_and_url (jira_url : option string) (now : datetime)
    (src : items) (n : json) (event_type k : string) :
  valid_datetime now ->
  filter_relevant_fields (JDict src) = Ok n ->
  Py.lookup "key" src = Some (JStr k) \/ (Py.lookup "key" src = None /\ k = "") ->
  exists envelope timestamp,
    prepare_data_for_pulsar jira_url now (JDict src) event_type = Ok (JDict envelope) /\
    timestamp = timestamp_of now /\
    Py.lookup "timestamp" envelope = Some (JStr timestamp) /\
    Py.lookup "date" envelope = Some (JStr (substring 0 10 timestamp)) /\
    substring 0 10 timestamp = Strftime.split_head "T"%char timestamp /\
    Py.lookup "url" envelope = Some (JStr (format_url jira_url ++ "/browse/" ++ k)%string).
Proof.
  intros Hv Hn Hk.
  assert (Hget : Py.get (JDict src) "key" (JStr "") = Ok (JStr k)).
  { simpl. destruct Hk as [-> | [-> ->]]; reflexivity. }
  destruct (prepare_data_for_pulsar_ok jira_url now _ _ event_type _ Hn Hget)
    as (base & _ & ->).
  destruct (timestamp_date _ Hv) as [Hsplit Hsub].
  eexists. exists (timestamp_of now). split; [reflexivity|]. split; [reflexivity|].
  repeat split.
  - rewrite !lookup_set_other by discriminate. apply lookup_set_same.
  - rewrite !lookup_set_other by discriminate. rewrite lookup_set_same.
    now rewrite Hsplit, Hsub.
  - now rewrite Hsplit, Hsub.
  - apply lookup_set_same.
Qed.

Lemma envelope_date_and_url_witness :
  exists envelope timestamp,
    prepare_data_for_pulsar (Some "http://jira") sample_instant tracker_issue
                            "initial_load" = Ok (JDict envelope) /\
    timestamp = timestamp_of sample_instant /\
    Py.lookup "timestamp" envelope = Some (JStr timestamp) /\
    Py.lookup "date" envelope = Some (JStr (substring 0 10 timestamp)) /\
    substring 0 10 timestamp = Strftime.split_head "T"%char timestamp /\
    Py.lookup "url" envelope = Some (JStr "http://jira/browse/TES-1").
Proof.
  apply (envelope_date_and_url (Some "http://jira") sample_instant tracker_issue_items
           tracker_issue "initial_load" "TES-1").
  - unfold valid_datetime. simpl. lia.
  - reflexivity.
  - left. reflexivity.
Defined.

(** ** Steps of the drivers *)

Lemma after_after (st : state) (n m : nat) (es fs : list event) :
  after (after st n es) m fs = after st (n + m) (es ++ fs).
Proof.
  unfold after. simpl. now rewrite Nat.add_assoc, app_assoc.
Qed.

Lemma after_one (st : state) (es : list event) :
  {| calls := S (calls st); trace := trace st ++ es |} = after st 1 es.
Proof.
  unfold after. now rewrite Nat.add_1_r.
Qed.

Lemma same_outcome {A} (r : result A) (n n' : nat) (es es' : list event) :
  n = n' -> es = es' ->
  Some (r, {| calls := n; trace := es |}) = Some (r, {| calls := n'; trace := es' |}).
Proof. now intros -> ->. Qed.

Lemma bind_ok {A B} (m : M A) (k : A -> M B) (st st' : state) (a : A) :
  m st = Some (Ok a, st') -> bind m k st = k a st'.
Proof. unfold bind. now intros ->. Qed.

Lemma lift_ok {A} (r : result A) (a : A) (st : state) :
  r = Ok a -> lift r st = Some (Ok a, st).
Proof. now intros ->. Qed.

Ltac same_state :=
  unfold after; cbn [calls trace]; apply same_outcome;
  [lia | rewrite <- ?app_assoc; reflexivity].

Section Steps.

Variable E : env.

(** [send_to_pulsar] returns normally whatever the producer does. *)
Lemma send_to_pulsar_returns (data : json) (st : state) :
  exists m, send_to_pulsar E data st =
            Some (Ok tt, after st 1 [ProducerSend data; Print m]) /\
            (producer_send E (calls st) data = false -> m = ErrorSendingData).
Proof.
  unfold send_to_pulsar, bind, call, emit.
  destruct (producer_send E (calls st) data).
  - destruct (Py.getitem data "id") as [id|]; eexists;
      (split; [same_state | discriminate]).
  - eexists. split; [same_state | reflexivity].
Qed.

Lemma get_issue_details_body (issue_id data : json) (st : state) :
  issue_get E (calls st) issue_id = Body data ->
  get_issue_details E issue_id st = Some (Ok data, after st 1 [IssueGet issue_id]).
Proof.
  intros H. unfold get_issue_details, bind, call, ret.
  rewrite H. same_state.
Qed.

Lemma get_issue_details_failed (issue_id : json) (e : request_exception) (st : state) :
  issue_get E (calls st) issue_id = RequestException e ->
  get_issue_details E issue_id st =
  Some (Ok JNull, after st 1 [IssueGet issue_id; Print (ErrorFetchingDetails issue_id e)]).
Proof.
  intros H. unfold get_issue_details, bind, call, ret, emit.
  rewrite H. same_state.
Qed.

Lemma prepare_ok (issue_data n : json) (event_type k : string) (st : state) :
  filter_relevant_fields issue_data = Ok n ->
  Py.get issue_data "key" (JStr "") = Ok (JStr k) ->
  exists envelope,
    prepare_data_for_pulsar (jira_url E) (datetime_now E (calls st))
                            issue_data event_type = Ok envelope /\
    prepare E issue_data event_type st = Some (Ok envelope, after st 1 []).
Proof.
  intros Hn Hk.
  destruct (prepare_data_for_pulsar_ok (jira_url E) (datetime_now E (calls st))
              _ _ event_type _ Hn Hk) as (base & _ & Hp).
  eexists. split; [exact Hp|].
  unfold prepare, bind, clock, lift. rewrite Hp. unfold ret.
  unfold after. now rewrite Nat.add_1_r, app_nil_r.
Qed.

End Steps.

(** ** The webhook handler *)

(** C1 (counterexample). The bus rejects the message, the failure is
    printed, and the caller is answered 200 with a success status. *)
Lemma publish_failure_answered_with_success :
  exists envelope,
    jira_webhook bus_down webhook_request initial =
    Some (Ok (JDict [("status", JStr "success")], 200%Z),
          {| calls := 3;
             trace := [IssueGet (JStr "10001"); ProducerSend envelope;
                       Print ErrorSendingData] |}) /\
    producer_send bus_down 2 envelope = false.
Proof.
  eexists. split; [vm_compute; reflexivity | reflexivity].
Qed.

Lemma prepare_returns (E : env) (issue_data envelope : json) (event_type : string)
    (st : state) :
  prepare_data_for_pulsar (jira_url E) (datetime_now E (calls st)) issue_data event_type
    = Ok envelope ->
  prepare E issue_data event_type st = Some (Ok envelope, after st 1 []).
Proof.
  intros Hp. unfold prepare, bind, clock, lift. rewrite Hp. unfold ret.
  unfold after. now rewrite Nat.add_1_r, app_nil_r.
Qed.

(** C1 (amended). A publish failure is not surfaced to the caller: when
    the issue was fetched, its envelope was built and the producer
    rejects that envelope, the failure is caught and logged inside the
    publish step and the handler still answers 200 with a success
    status. *)
Theorem webhook_answers_success_when_publish_fails (E : env) (req : request)
    (body : items) (issue issue_id issue_data envelope : json) (st : state) :
  is_json req = true ->
  json_body req = Some (JDict body) ->
  Py.lookup "issue" body = Some issue ->
  Py.getitem issue "id" = Ok issue_id ->
  issue_get E (calls st) issue_id = Body issue_data ->
  Py.truthy issue_data = true ->
  prepare_data_for_pulsar (jira_url E) (datetime_now E (S (calls st))) issue_data
                          (event_type_of req) = Ok envelope ->
  producer_send E (S (S (calls st))) envelope = false ->
  jira_webhook E req st =
  Some (Ok (jsonify "status" "success", 200%Z),
        after st 3 [IssueGet issue_id; ProducerSend envelope; Print ErrorSendingData]).
Proof.
  intros Hjson Hbody Hissue Hid Hget Htruthy Henv Hfail.
  unfold jira_webhook. rewrite Hjson. cbn [negb].
  unfold request_json. rewrite Hbody.
  rewrite (bind_ok _ _ st st (JDict body)) by reflexivity.
  assert (Hin : Py.mem "issue" (keys body) = true).
  { apply mem_In. apply lookup_In in Hissue. apply in_map_iff. now exists ("issue", issue). }
  rewrite (bind_ok _ _ st st true) by (apply lift_ok; simpl; now rewrite Hin).
  rewrite (bind_ok _ _ st st issue) by (apply lift_ok; simpl; now rewrite Hissue).
  rewrite (bind_ok _ _ st st issue_id) by (now apply lift_ok).
  rewrite (bind_ok _ _ _ _ _ (get_issue_details_body E _ _ _ Hget)).
  rewrite Htruthy. fold (event_type_of req).
  assert (Hprep : prepare E issue_data (event_type_of req) (after st 1 [IssueGet issue_id])
                  = Some (Ok envelope, after (after st 1 [IssueGet issue_id]) 1 [])).
  { apply prepare_returns. cbn [after calls].
    now replace (calls st + 1) with (S (calls st)) by lia. }
  rewrite (bind_ok _ _ _ _ _ Hprep).
  destruct (send_to_pulsar_returns E envelope (after (after st 1 [IssueGet issue_id]) 1 []))
    as (m & Hsend & Hm).
  rewrite (bind_ok _ _ _ _ _ Hsend). rewrite Hm.
  - unfold ret. rewrite !after_after. reflexivity.
  - cbn [after calls]. now replace (calls st + 1 + 1) with (S (S (calls st))) by lia.
Qed.

Lemma webhook_answers_success_when_publish_fails_witness :
  exists envelope,
    prepare_data_for_pulsar (jira_url bus_down) (datetime_now bus_down 1) tracker_issue
                            "jira:issue_updated" = Ok envelope /\
    producer_send bus_down 2 envelope = false /\
    jira_webhook bus_down webhook_request initial =
    Some (Ok (jsonify "status" "success", 200%Z),
          after initial 3 [IssueGet (JStr "10001"); ProducerSend envelope;
                           Print ErrorSendingData]).
Proof.
  eexists. split; [reflexivity|]. split; [reflexivity|].
  apply (webhook_answers_success_when_publish_fails bus_down webhook_request
           [("webhookEvent", JStr "jira:issue_updated");
            ("issue", JDict [("id", JStr "10001")])]
           (JDict [("id", JStr "10001")]) (JStr "10001") tracker_issue);
    reflexivity.
Defined.

(** What the handler does reject: a request that is not JSON, and a JSON
    object without an [issue] key; neither touches the tracker or the bus. *)
Lemma webhook_rejects_without_issue (E : env) (req : request) (st : state) :
  is_json req = false \/
  (exists body, json_body req = Some (JDict body) /\ Py.lookup "issue" body = None) ->
  exists payload, jira_webhook E req st = Some (Ok (payload, 400%Z), st).
Proof.
  intros [Hjson | (body & Hbody & Hnone)]; unfold jira_webhook.
  - rewrite Hjson. eexists. reflexivity.
  - destruct (is_json req); cbn [negb]; [|eexists; reflexivity].
    unfold request_json. rewrite Hbody.
    rewrite (bind_ok _ _ st st (JDict body)) by reflexivity.
    apply lookup_None, mem_not_In in Hnone.
    rewrite (bind_ok _ _ st st false) by (apply lift_ok; simpl; now rewrite Hnone).
    eexists. reflexivity.
Qed.

(** C5. A JSON body whose [issue] object carries no [id] makes the
    handler raise [KeyError] at [data["issue"]["id"]], before any fetch or
    publish; the answer is not the 400 rejection. *)
Theorem webhook_raises_on_issue_without_id (E : env) (st : state) :
  json_body request_without_id = Some (JDict [("issue", JDict [("key", JStr "TES-1")])]) /\
  Py.getitem (JDict [("key", JStr "TES-1")]) "id" = Raise KeyError /\
  jira_webhook E request_without_id st = Some (Raise KeyError, st).
Proof.
  repeat split.
Qed.

(** ** The backfill driver *)

Section Pagination.

Variable E : env.

(** One iteration on a page that arrives as an object with an [issues]
    list: stop when the page is short, go on otherwise. *)
Lemma page_step (fuel : nat) (issues page : list json) (start_at : Z)
    (d : items) (st : state) :
  search_get E (calls st) start_at 50 = Body (JDict d) ->
  Py.lookup "issues" d = Some (JList page) ->
  get_all_issues_loop E (S fuel) issues start_at st =
  if (Z.of_nat (List.length page) <? 50)%Z
  then Some (Ok (issues ++ page), after st 1 [SearchGet start_at 50])
  else get_all_issues_loop E fuel (issues ++ page) (start_at + 50)%Z
                           (after st 1 [SearchGet start_at 50]).
Proof.
  intros Hget Hissues. cbn [get_all_issues_loop]. unfold max_results.
  assert (Hcall : call (SearchGet start_at 50) (fun t => search_get E t start_at 50) st
                  = Some (Ok (Body (JDict d)), after st 1 [SearchGet start_at 50])).
  { unfold call. rewrite Hget. same_state. }
  rewrite (bind_ok _ _ _ _ _ Hcall).
  rewrite (bind_ok _ _ _ _ (JList page)) by (apply lift_ok; simpl; now rewrite Hissues).
  rewrite (bind_ok _ _ _ _ page) by reflexivity.
  rewrite (bind_ok _ _ _ _ (JList page)) by (apply lift_ok; simpl; now rewrite Hissues).
  rewrite (bind_ok _ _ _ _ (Z.of_nat (List.length page))) by reflexivity.
  now destruct (Z.of_nat (List.length page) <? 50)%Z.
Qed.

Lemma full_page_continues (fuel : nat) (issues page : list json) (start_at : Z)
    (d : items) (st : state) :
  search_get E (calls st) start_at 50 = Body (JDict d) ->
  Py.lookup "issues" d = Some (JList page) ->
  50 <= List.length page ->
  get_all_issues_loop E (S fuel) issues start_at st =
  get_all_issues_loop E fuel (issues ++ page) (start_at + 50)%Z
                      (after st 1 [SearchGet start_at 50]).
Proof.
  intros Hget Hissues Hlen. rewrite (page_step _ _ _ _ _ _ Hget Hissues).
  destruct (Z.ltb_spec (Z.of_nat (List.length page)) 50); [lia | reflexivity].
Qed.

Lemma short_page_stops (fuel : nat) (issues page : list json) (start_at : Z)
    (d : items) (st : state) :
  search_get E (calls st) start_at 50 = Body (JDict d) ->
  Py.lookup "issues" d = Some (JList page) ->
  List.length page < 50 ->
  get_all_issues_loop E (S fuel) issues start_at st =
  Some (Ok (issues ++ page), after st 1 [SearchGet start_at 50]).
Proof.
  intros Hget Hissues Hlen. rewrite (page_step _ _ _ _ _ _ Hget Hissues).
  destruct (Z.ltb_spec (Z.of_nat (List.length page)) 50); [reflexivity | lia].
Qed.

(** A request failure ends the loop with what was accumulated. *)
Lemma request_exception_stops_pagination (fuel : nat) (issues : list json)
    (start_at : Z) (e : request_exception) (st : state) :
  search_get E (calls st) start_at 50 = RequestException e ->
  get_all_issues_loop E (S fuel) issues start_at st =
  Some (Ok issues, after st 1 [SearchGet start_at 50; Print (ErrorFetchingIssues e)]).
Proof.
  intros Hget. cbn [get_all_issues_loop]. unfold max_results, bind, call, emit, ret.
  rewrite Hget. same_state.
Qed.

End Pagination.

Lemma corpus_pages (corpus : list json) :
  List.length corpus = 127 ->
  List.length (page_of corpus 0) = 50 /\
  List.length (page_of corpus 50) = 50 /\
  List.length (page_of corpus 100) = 27 /\
  page_of corpus 0 ++ page_of corpus 50 ++ page_of corpus 100 = corpus.
Proof.
  intros Hlen. unfold page_of.
  change (Z.to_nat 0) with 0. change (Z.to_nat 50) with 50. change (Z.to_nat 100) with 100.
  rewrite !length_firstn, !length_skipn, Hlen. repeat split.
  rewrite (firstn_all2 (n := 50) (skipn 100 corpus)) by (rewrite length_skipn; lia).
  change 100 with (50 + 50) at 1. rewrite <- skipn_skipn.
  rewrite firstn_skipn. simpl skipn at 1. apply firstn_skipn.
Qed.

(** C7. With pages of 50 over a corpus of exactly 127 summaries, the
    loop fetches at offsets 0, 50 and 100, receives 50, 50 and 27
    summaries, stops after the short page and returns the whole corpus.
    The tracker's answers are constrained in their [issues] only: a
    [total], present or not, plays no part. *)
Theorem pagination_of_127_issues (E : env) (corpus : list json) (fuel : nat) (st : state) :
  List.length corpus = 127 ->
  serves E corpus ->
  3 <= fuel ->
  get_all_issues E fuel st =
    Some (Ok corpus, after st 3 [SearchGet 0 50; SearchGet 50 50; SearchGet 100 50]) /\
  map (fun start_at => List.length (page_of corpus start_at)) [0; 50; 100]%Z = [50; 50; 27].
Proof.
  intros Hlen Hserves Hfuel.
  destruct (corpus_pages _ Hlen) as (H0 & H50 & H100 & Hall).
  split; [|simpl; now rewrite H0, H50, H100].
  destruct fuel as [|[|[|fuel]]]; try lia.
  unfold get_all_issues.
  destruct (Hserves (calls st) 0%Z) as (d0 & Hget0 & Hl0).
  rewrite (full_page_continues E _ _ _ _ _ _ Hget0 Hl0) by lia.
  destruct (Hserves (calls (after st 1 [SearchGet 0 50])) 50%Z) as (d1 & Hget1 & Hl1).
  rewrite (full_page_continues E _ _ _ _ _ _ Hget1 Hl1) by lia.
  destruct (Hserves (calls (after (after st 1 [SearchGet 0 50]) 1 [SearchGet 50 50])) 100%Z)
    as (d2 & Hget2 & Hl2).
  rewrite (short_page_stops E _ _ _ _ _ _ Hget2 Hl2) by lia.
  rewrite !after_after. simpl app at 1. rewrite <- app_assoc, Hall. reflexivity.
Qed.

Lemma pagination_of_127_issues_witness :
  get_all_issues (tracker_of (summaries 0 127)) 5 initial =
    Some (Ok (summaries 0 127),
          after initial 3 [SearchGet 0 50; SearchGet 50 50; SearchGet 100 50]) /\
  map (fun start_at => List.length (page_of (summaries 0 127) start_at)) [0; 50; 100]%Z
    = [50; 50; 27].
Proof.
  apply (pagination_of_127_issues (tracker_of (summaries 0 127)) (summaries 0 127) 5 initial).
  - reflexivity.
  - intros t start_at. eexists. split; reflexivity.
  - lia.
Defined.

(** C6. The first page brings 50 summaries; the second answer is a JSON
    object without [issues].  [len(data["issues"])] raises [KeyError],
    which the [except requests.RequestException] clause does not catch:
    the run ends there, and none of the 50 accumulated summaries is
    fetched or published. *)
Theorem malformed_page_aborts_backfill (fuel : nat) :
  search_get malformed_second_page 0 0 50 = Body (JDict [("issues", JList (summaries 0 50))]) /\
  search_get malformed_second_page 1 50 50 = Body (JDict []) /\
  main malformed_second_page (S (S fuel)) initial =
    Some (Raise KeyError, {| calls := 2; trace := [SearchGet 0 50; SearchGet 50 50] |}).
Proof.
  repeat split.
Qed.

Section PerIssue.

Variable E : env.

(** An issue whose details arrive is normalised and handed to the
    producer; the loop goes on whatever the producer answers. *)
Lemma for_each_issue_published (s i d n : json) (k : string) (rest : list json)
    (st : state) :
  Py.getitem s "id" = Ok i ->
  issue_get E (calls st) i = Body d ->
  Py.truthy d = true ->
  filter_relevant_fields d = Ok n ->
  Py.get d "key" (JStr "") = Ok (JStr k) ->
  exists envelope m,
    prepare_data_for_pulsar (jira_url E) (datetime_now E (S (calls st))) d "initial_load"
      = Ok envelope /\
    for_each_issue E (s :: rest) st =
    for_each_issue E rest (after st 3 [IssueGet i; ProducerSend envelope; Print m]).
Proof.
  intros Hid Hget Htruthy Hn Hk. cbn [for_each_issue].
  rewrite (bind_ok _ _ st st i) by (now apply lift_ok).
  rewrite (bind_ok _ _ _ _ _ (get_issue_details_body E _ _ _ Hget)).
  rewrite Htruthy.
  destruct (prepare_ok E _ _ "initial_load" _ (after st 1 [IssueGet i]) Hn Hk)
    as (envelope & Henv & Hprep).
  destruct (send_to_pulsar_returns E envelope (after (after st 1 [IssueGet i]) 1 []))
    as (m & Hsend & _).
  exists envelope, m. split.
  - cbn [after calls] in Henv. now replace (calls st + 1) with (S (calls st)) in Henv by lia.
  - assert (Hpublish :
      (data_for_pulsar <- prepare E d "initial_load" ;;
       send_to_pulsar E data_for_pulsar)%io (after st 1 [IssueGet i]) =
      Some (Ok tt, after st 3 [IssueGet i; ProducerSend envelope; Print m])).
    { rewrite (bind_ok _ _ _ _ _ Hprep), Hsend. now rewrite !after_after. }
    now rewrite (bind_ok _ _ _ _ _ Hpublish).
Qed.

(** An issue whose details cannot be read is logged and skipped. *)
Lemma for_each_issue_skipped (s i : json) (e : request_exception) (rest : list json)
    (st : state) :
  Py.getitem s "id" = Ok i ->
  issue_get E (calls st) i = RequestException e ->
  for_each_issue E (s :: rest) st =
  for_each_issue E rest (after st 1 [IssueGet i; Print (ErrorFetchingDetails i e)]).
Proof.
  intros Hid Hget. cbn [for_each_issue].
  rewrite (bind_ok _ _ st st i) by (now apply lift_ok).
  rewrite (bind_ok _ _ _ _ _ (get_issue_details_failed E _ _ _ Hget)).
  cbn [Py.truthy]. now rewrite (bind_ok _ _ _ _ tt) by reflexivity.
Qed.

End PerIssue.

(** * Further properties of the pipeline *)

(** ** Normalisation: exact contents *)

Lemma keys_kept (allowed : list string) (d : items) :
  keys (kept allowed d) = filter (fun k => Py.mem k allowed) (keys d).
Proof.
  unfold kept, keys. induction d as [|[k v] d IH]; simpl; [reflexivity|].
  destruct (Py.mem k allowed); simpl; now rewrite IH.
Qed.

Lemma top_level_kept (src : items) :
  unique_keys src -> top_level src = kept relevant_fields src.
Proof. apply comprehension_filter. Qed.

Lemma lookup_kept (allowed : list string) (k : string) (d : items) :
  Py.lookup k (kept allowed d) = if Py.mem k allowed then Py.lookup k d else None.
Proof. apply (lookup_filter (fun k0 => Py.mem k0 allowed)). Qed.

Lemma unique_keys_app_fresh (acc src : items) (k : string) (v : json) :
  unique_keys (acc ++ (k, v) :: src) ->
  ~ In k (keys acc) /\ unique_keys (acc ++ src) /\ unique_keys ((acc ++ [(k, v)]) ++ src).
Proof.
  intros H. split; [|split].
  - unfold unique_keys, keys in H. rewrite map_app in H. simpl in H.
    apply NoDup_remove_2 in H. rewrite in_app_iff in H. tauto.
  - unfold unique_keys, keys in *. rewrite map_app in *. simpl in H.
    now apply NoDup_remove_1 in H.
  - now rewrite <- app_assoc.
Qed.

(** With distinct source keys the loop appends, in order, the filtered
    value of every whitelisted field. *)
Lemma filter_fields_loop_keys (src acc out : items) :
  filter_fields_loop src acc = Ok out -> unique_keys (acc ++ src) ->
  keys out = keys acc ++ filter (fun k => Py.mem k relevant_subfields) (keys src).
Proof.
  revert acc. induction src as [|[k0 v0] src IH]; simpl; intros acc H Hu.
  - injection H as <-. now rewrite app_nil_r.
  - destruct (unique_keys_app_fresh _ _ _ _ Hu) as (Hfresh & Hu1 & Hu2).
    destruct (Py.mem k0 relevant_subfields).
    + destruct (filter_field k0 v0) as [w|]; simpl in H; [|discriminate].
      rewrite (set_fresh _ _ _ Hfresh) in H.
      rewrite (IH _ H).
      * unfold keys. rewrite map_app. simpl. now rewrite <- app_assoc.
      * unfold unique_keys, keys in *. rewrite !map_app in *. simpl in *. exact Hu2.
    + apply (IH _ H Hu1).
Qed.

(** Where a whitelisted field of the source ends up. *)
Lemma normalized_field (src fsrc : items) (k : string) (v n : json) :
  unique_keys src -> Py.lookup "fields" src = Some (JDict fsrc) ->
  unique_keys fsrc -> Py.lookup k fsrc = Some v ->
  Py.mem k relevant_subfields = true ->
  filter_relevant_fields (JDict src) = Ok n ->
  exists v', filter_field k v = Ok v' /\ at_path ["fields"; k] n = Some v'.
Proof.
  intros Hu Hf Hfu Hk Hm Hn.
  rewrite (filter_relevant_fields_with_fields _ _ Hu Hf) in Hn.
  destruct (filter_fields_loop fsrc []) as [fout|] eqn:Hloop; simpl in Hn; [|discriminate].
  injection Hn as <-. rewrite at_path_fields.
  destruct (filter_fields_loop_lookup _ _ _ _ _ Hloop Hfu Hk Hm) as (w & Hw & ->). eauto.
Qed.

(** X1. On an issue with an object under [fields], the output keeps
    exactly the whitelisted keys of the source, in the order of the
    source: [id], [key], [fields] at the top, the twelve subfields under
    [fields]. *)
Theorem normalized_keys_exact (src fsrc : items) (n : json) :
  unique_keys src -> Py.lookup "fields" src = Some (JDict fsrc) ->
  unique_keys fsrc ->
  filter_relevant_fields (JDict src) = Ok n ->
  exists out fout,
    n = JDict out /\
    keys out = filter (fun k => Py.mem k relevant_fields) (keys src) /\
    Py.lookup "fields" out = Some (JDict fout) /\
    keys fout = filter (fun k => Py.mem k relevant_subfields) (keys fsrc).
Proof.
  intros Hu Hf Hfu Hn.
  rewrite (filter_relevant_fields_with_fields _ _ Hu Hf) in Hn.
  destruct (filter_fields_loop fsrc []) as [fout|] eqn:Hloop; simpl in Hn; [|discriminate].
  injection Hn as <-. eexists. exists fout. split; [reflexivity|].
  split; [|split].
  - rewrite keys_set.
    assert (Hm : Py.mem "fields" (keys (top_level src)) = true).
    { apply mem_In. rewrite <- top_level_lookup_fields in Hf by assumption.
      apply lookup_In in Hf. apply in_map_iff. now exists ("fields", JDict fsrc). }
    rewrite Hm, (top_level_kept _ Hu). apply keys_kept.
  - apply lookup_set_same.
  - now rewrite (filter_fields_loop_keys _ _ _ Hloop Hfu).
Qed.

Lemma normalized_keys_exact_witness :
  exists out fout,
    verbose_issue_normalized = JDict out /\
    keys out = ["id"; "key"; "fields"] /\
    Py.lookup "fields" out = Some (JDict fout) /\
    keys fout = ["summary"; "creator"; "labels"; "priority"].
Proof.
  refine (normalized_keys_exact verbose_issue_items verbose_fields
            verbose_issue_normalized _ _ _ _).
  - apply distinct_unique. reflexivity.
  - reflexivity.
  - apply distinct_unique. reflexivity.
  - reflexivity.
Defined.

(** X2. A [creator], [reporter], [project] or [issuetype] object under
    [fields] comes out with exactly its whitelisted attributes, values
    and order untouched. *)
Theorem pruned_subobject_exact (src fsrc sub : items) (k : string)
    (ws : list string) (n : json) :
  unique_keys src -> Py.lookup "fields" src = Some (JDict fsrc) ->
  unique_keys fsrc -> Py.lookup k fsrc = Some (JDict sub) -> unique_keys sub ->
  Py.mem k relevant_subfields = true -> nested_whitelist k = Some ws ->
  filter_relevant_fields (JDict src) = Ok n ->
  at_path ["fields"; k] n = Some (JDict (kept ws sub)).
Proof.
  intros Hu Hf Hfu Hk Hsu Hm Hws Hn.
  destruct (normalized_field _ _ _ _ _ Hu Hf Hfu Hk Hm Hn) as (w & Hw & ->).
  unfold filter_field in Hw. simpl in Hw. rewrite Hws in Hw. simpl in Hw.
  injection Hw as <-. now rewrite comprehension_filter.
Qed.

Lemma pruned_subobject_exact_witness :
  at_path ["fields"; "creator"] verbose_issue_normalized =
  Some (JDict [("displayName", JStr "Alice"); ("emailAddress", JStr "a@x.com");
               ("timeZone", JStr "Europe/Berlin")]).
Proof.
  refine (pruned_subobject_exact verbose_issue_items verbose_fields verbose_creator
            "creator" ["displayName"; "emailAddress"; "timeZone"]
            verbose_issue_normalized _ _ _ _ _ _ _ _).
  - apply distinct_unique. reflexivity.
  - reflexivity.
  - apply distinct_unique. reflexivity.
  - reflexivity.
  - apply distinct_unique. reflexivity.
  - reflexivity.
  - reflexivity.
  - reflexivity.
Defined.

(** X3. Values are carried over unchanged: [id] and [key] at the top,
    and under [fields] every whitelisted field that is not an object, or
    that is neither [comment] nor a key of the nested table (so
    [summary], [description], [created], [updated], [labels],
    [priority] and [status], whatever they contain). *)
Theorem unhandled_values_copied (src fsrc : items) (k : string) (v n : json) :
  unique_keys src -> Py.lookup "fields" src = Some (JDict fsrc) ->
  unique_keys fsrc -> Py.lookup k fsrc = Some v ->
  Py.mem k relevant_subfields = true ->
  Py.is_dict v = false \/ (nested_whitelist k = None /\ k <> "comment") ->
  filter_relevant_fields (JDict src) = Ok n ->
  at_path ["fields"; k] n = Some v /\
  at_path ["id"] n = Py.lookup "id" src /\
  at_path ["key"] n = Py.lookup "key" src.
Proof.
  intros Hu Hf Hfu Hk Hm Hcase Hn. split.
  - destruct (normalized_field _ _ _ _ _ Hu Hf Hfu Hk Hm Hn) as (w & Hw & ->).
    f_equal. unfold filter_field in Hw.
    destruct Hcase as [Hd | [Hnone Hne]].
    + rewrite Hd, andb_false_r in Hw. now injection Hw.
    + rewrite Hnone in Hw. apply String.eqb_neq in Hne. rewrite Hne in Hw.
      destruct (Py.is_dict v); now injection Hw.
  - rewrite (filter_relevant_fields_with_fields _ _ Hu Hf) in Hn.
    destruct (filter_fields_loop fsrc []) as [fout|]; simpl in Hn; [|discriminate].
    injection Hn as <-. simpl.
    rewrite !lookup_set_other by discriminate.
    rewrite (top_level_kept _ Hu), !lookup_kept. simpl.
    split; [now destruct (Py.lookup "id" src) | now destruct (Py.lookup "key" src)].
Qed.

Lemma unhandled_values_copied_witness :
  at_path ["fields"; "priority"] verbose_issue_normalized
    = Some (JDict [("id", JStr "3"); ("name", JStr "Medium")]) /\
  at_path ["id"] verbose_issue_normalized = Py.lookup "id" verbose_issue_items /\
  at_path ["key"] verbose_issue_normalized = Py.lookup "key" verbose_issue_items.
Proof.
  refine (unhandled_values_copied verbose_issue_items verbose_fields "priority"
            (JDict [("id", JStr "3"); ("name", JStr "Medium")])
            verbose_issue_normalized _ _ _ _ _ _ _).
  - apply distinct_unique. reflexivity.
  - reflexivity.
  - apply distinct_unique. reflexivity.
  - reflexivity.
  - reflexivity.
  - right. split; [reflexivity | discriminate].
  - reflexivity.
Defined.

(** ** Normalisation: when it returns *)

Lemma returns_Ok {A} (r : result A) : returns r = true <-> exists a, r = Ok a.
Proof.
  destruct r; simpl; split; eauto; try discriminate. now intros [a Ha].
Qed.

Lemma returns_rmap {A B} (f : A -> result B) (l : list A) :
  returns (rmap f l) = forallb (fun a => returns (f a)) l.
Proof.
  induction l as [|a l IH]; simpl; [reflexivity|].
  destruct (f a); simpl; [|reflexivity].
  rewrite <- IH. now destruct (rmap f l).
Qed.

Lemma returns_rebuild_comment (c : json) : returns (rebuild_comment c) = entry_ok c.
Proof.
  unfold rebuild_comment, entry_ok. destruct c as [| | | | | |e]; try reflexivity.
  simpl. destruct (Py.lookup "author" e) as [a|]; [|reflexivity].
  destruct a; reflexivity.
Qed.

Lemma rebuild_comment_rejects_strings (ks : list string) :
  ks <> [] -> returns (rmap rebuild_comment (map JStr ks)) = false.
Proof. destruct ks; [congruence | reflexivity]. Qed.

Lemma returns_comments (comments : json) :
  returns (seq <- Py.iter comments ;; rmap rebuild_comment seq) = comments_ok comments.
Proof.
  destruct comments as [| | | |s|l|d]; try reflexivity; simpl.
  - destruct s; reflexivity.
  - rewrite returns_rmap. induction l as [|c l IH]; simpl; [reflexivity|].
    now rewrite returns_rebuild_comment, IH.
  - destruct d as [|[k v] d]; reflexivity.
Qed.

Lemma returns_filter_field (k : string) (v : json) :
  returns (filter_field k v) = if String.eqb k "comment" then comment_ok v else true.
Proof.
  destruct (String.eqb_spec k "comment") as [->|Hne].
  - unfold filter_field, comment_ok. destruct v as [| | | | | |d]; try reflexivity.
    simpl. destruct (Py.lookup "comments" d) as [cs|].
    + rewrite <- returns_comments.
      destruct (Py.iter cs) as [seq|]; simpl; [|reflexivity].
      now destruct (rmap rebuild_comment seq).
    + reflexivity.
  - destruct (filter_field_total k v) as [v' ->]; [now left | reflexivity].
Qed.

Lemma returns_filter_fields_loop (src acc : items) :
  returns (filter_fields_loop src acc) = fields_ok src.
Proof.
  revert acc. induction src as [|[k v] src IH]; simpl; intros acc; [reflexivity|].
  pose proof (returns_filter_field k v) as Hf.
  destruct (Py.mem k relevant_subfields) eqn:Hm.
  - destruct (filter_field k v) as [w|]; simpl in *.
    + now rewrite IH, <- Hf.
    + now rewrite <- Hf.
  - rewrite IH. destruct (String.eqb_spec k "comment") as [->|]; [discriminate | reflexivity].
Qed.

Lemma filter_without_fields (src : items) :
  unique_keys src -> Py.lookup "fields" src = None ->
  filter_relevant_fields (JDict src) = Ok (JDict (kept ["id"; "key"] src)).
Proof.
  intros Hu Hnone.
  assert (Hsame : kept relevant_fields src = kept ["id"; "key"] src).
  { unfold kept. apply filter_ext_in. intros [k v] Hin. simpl.
    unfold relevant_fields. rewrite !mem_cons.
    destruct (String.eqb_spec k "fields") as [->|]; [|now rewrite !orb_false_r].
    exfalso. apply lookup_None in Hnone. apply Hnone.
    apply in_map_iff. now exists ("fields", v). }
  rewrite filter_relevant_fields_dict, (top_level_kept _ Hu), Hsame.
  assert (Hm : Py.mem "fields" (keys (kept ["id"; "key"] src)) = false).
  { apply mem_not_In. rewrite keys_kept, filter_In. intros [_ H]. discriminate. }
  now rewrite Hm.
Qed.

(** X4. An issue without [fields] is normalised without raising: the
    output holds the source's [id] and [key] entries and no [fields]
    key. *)
Theorem issue_without_fields_tolerated (src : items) :
  unique_keys src -> Py.lookup "fields" src = None ->
  filter_relevant_fields (JDict src) = Ok (JDict (kept ["id"; "key"] src)) /\
  at_path ["fields"] (JDict (kept ["id"; "key"] src)) = None.
Proof.
  intros Hu Hnone. split; [now apply filter_without_fields|].
  simpl. now rewrite lookup_kept.
Qed.

Lemma issue_without_fields_tolerated_witness :
  filter_relevant_fields (JDict issue_without_fields_items)
    = Ok (JDict [("id", JStr "1"); ("key", JStr "X")]) /\
  at_path ["fields"] (JDict [("id", JStr "1"); ("key", JStr "X")]) = None.
Proof.
  refine (issue_without_fields_tolerated issue_without_fields_items _ _).
  - apply distinct_unique. reflexivity.
  - reflexivity.
Defined.

(** X5. Normalisation returns exactly on the objects whose [fields] is
    absent or an object in which a [comment] object, if any, has no
    [comments] or a list of objects whose [author] is absent or an
    object (an empty string or object under [comments] passes too).  On
    everything else it raises: a value that is not an object, [fields]
    set to null, a comment whose [author] is null. *)
Theorem normalization_returns_iff (issue : json) :
  (forall src, issue = JDict src -> unique_keys src) ->
  (exists n, filter_relevant_fields issue = Ok n) <-> normalizable issue = true.
Proof.
  intros Hu. rewrite <- returns_Ok.
  destruct issue as [| | | | | |src]; try (simpl; tauto).
  specialize (Hu src eq_refl). unfold normalizable.
  destruct (Py.lookup "fields" src) as [f|] eqn:Hf.
  - destruct f as [| | | | | |fsrc];
      try (rewrite filter_relevant_fields_dict;
           assert (Hm : Py.mem "fields" (keys (top_level src)) = true)
             by (apply mem_In; rewrite <- top_level_lookup_fields in Hf by assumption;
                 apply lookup_In in Hf; apply in_map_iff; eexists; split; [|exact Hf]; reflexivity);
           rewrite Hm; simpl; rewrite top_level_lookup_fields, Hf by assumption;
           simpl; split; discriminate).
    rewrite (filter_relevant_fields_with_fields _ _ Hu Hf).
    rewrite <- (returns_filter_fields_loop fsrc []).
    destruct (filter_fields_loop fsrc []); simpl; tauto.
  - rewrite (filter_without_fields src Hu Hf). simpl. tauto.
Qed.

Lemma normalization_returns_iff_witness :
  (exists n, filter_relevant_fields tracker_issue = Ok n) <-> normalizable tracker_issue = true.
Proof.
  apply (normalization_returns_iff tracker_issue).
  intros src [= <-]. apply distinct_unique. reflexivity.
Defined.

(** ** The envelope: contents and failure *)

(** The stores of [prepare_data_for_pulsar] all fall on fresh keys. *)
Lemma envelope_appends (jira_url : option string) (now : datetime)
    (issue : json) (base : items) (event_type k : string) :
  filter_relevant_fields issue = Ok (JDict base) ->
  Py.get issue "key" (JStr "") = Ok (JStr k) ->
  prepare_data_for_pulsar jira_url now issue event_type =
  Ok (JDict (base ++ metadata jira_url now event_type k)).
Proof.
  intros Hn Hk.
  destruct (prepare_data_for_pulsar_ok jira_url now _ _ event_type _ Hn Hk)
    as (base' & [= <-] & ->).
  destruct (whitelist_levels _ _ Hn) as [Htop _].
  assert (Hfresh : forall k0 extra, ~ In k0 relevant_fields ->
            ~ In k0 (keys extra) -> ~ In k0 (keys (base ++ extra))).
  { intros k0 extra H1 H2. unfold keys. rewrite map_app, in_app_iff.
    intros [H|H]; [apply H1, Htop, H | exact (H2 H)]. }
  assert (Hnot : forall k0, In k0 ["timestamp"; "date"; "event_type"; "url"] ->
                            ~ In k0 relevant_fields).
  { intros k0 Hin Hrel. simpl in Hin, Hrel.
    destruct Hin as [<-|[<-|[<-|[<-|[]]]]]; intuition discriminate. }
  unfold metadata.
  rewrite (set_fresh "timestamp" _ base)
    by (rewrite <- (app_nil_r base); apply Hfresh; [apply Hnot; simpl; tauto | simpl; tauto]).
  rewrite (set_fresh "date")
    by (apply Hfresh; [apply Hnot; simpl; tauto | simpl; intuition discriminate]).
  rewrite <- app_assoc.
  rewrite (set_fresh "event_type")
    by (apply Hfresh; [apply Hnot; simpl; tauto | simpl; intuition discriminate]).
  rewrite <- app_assoc.
  rewrite (set_fresh "url")
    by (apply Hfresh; [apply Hnot; simpl; tauto | simpl; intuition discriminate]).
  now rewrite <- app_assoc.
Qed.

(** X6. The envelope is the normalised record followed by [timestamp],
    [date], [event_type] and [url], in that order: the metadata never
    replaces an attribute of the issue, and the event type is stored as
    given. *)
Theorem envelope_extends_normalized (jira_url : option string) (now : datetime)
    (issue : json) (base : items) (event_type k : string) :
  filter_relevant_fields issue = Ok (JDict base) ->
  Py.get issue "key" (JStr "") = Ok (JStr k) ->
  prepare_data_for_pulsar jira_url now issue event_type =
  Ok (JDict (base ++ metadata jira_url now event_type k)).
Proof.
  intros Hn Hk. now apply envelope_appends.
Qed.

Lemma envelope_extends_normalized_witness :
  prepare_data_for_pulsar (Some "http://jira") sample_instant verbose_issue "initial_load" =
  Ok (JDict ([("id", JStr "10004"); ("key", JStr "TES-4");
              ("fields", JDict [
                 ("summary", JStr "Fix bug");
                 ("creator", JDict [("displayName", JStr "Alice");
                                    ("emailAddress", JStr "a@x.com");
                                    ("timeZone", JStr "Europe/Berlin")]);
                 ("labels", JList [JStr "backend"]);
                 ("priority", JDict [("id", JStr "3"); ("name", JStr "Medium")])])]
             ++ metadata (Some "http://jira") sample_instant "initial_load" "TES-4")).
Proof.
  apply (envelope_extends_normalized (Some "http://jira") sample_instant verbose_issue).
  - reflexivity.
  - reflexivity.
Defined.

(** X7. A key that is present but not a string (null, a number) makes
    the concatenation of the URL raise [TypeError], although the issue
    itself normalises: no envelope is built. *)
Theorem non_string_key_raises (jira_url : option string) (now : datetime)
    (src : items) (n v : json) (event_type : string) :
  filter_relevant_fields (JDict src) = Ok n ->
  Py.lookup "key" src = Some v ->
  (forall s, v <> JStr s) ->
  prepare_data_for_pulsar jira_url now (JDict src) event_type = Raise TypeError.
Proof.
  intros Hn Hk Hv. unfold prepare_data_for_pulsar. rewrite Hn.
  destruct (filter_relevant_fields_dict_result _ _ Hn) as [base ->].
  cbn [rbind Py.dict_items Py.get]. rewrite Hk. cbn [rbind].
  destruct v; try reflexivity. now destruct (Hv s).
Qed.

Lemma non_string_key_raises_witness :
  prepare_data_for_pulsar (Some "http://jira") sample_instant
    (JDict issue_with_null_key_items) "initial_load" = Raise TypeError.
Proof.
  apply (non_string_key_raises (Some "http://jira") sample_instant
           issue_with_null_key_items (JDict issue_with_null_key_items) JNull).
  - reflexivity.
  - reflexivity.
  - discriminate.
Defined.

Lemma normalized_unique (issue : json) (base : items) :
  filter_relevant_fields issue = Ok (JDict base) -> unique_keys base.
Proof.
  intros H. destruct (filter_relevant_fields_inv _ _ H)
    as (src & _ & [[_ [= ->]] | (fsrc & fout & _ & _ & [= ->])]).
  - apply comprehension_unique.
  - apply set_unique, comprehension_unique.
Qed.

(** X18. Normalising an envelope gives back the normalised record it
    was built from: the four metadata keys are not whitelisted, and the
    record is a fixed point. *)
Theorem envelope_normalizes_to_record (jira_url : option string) (now : datetime)
    (issue envelope : json) (base : items) (event_type k : string) :
  filter_relevant_fields issue = Ok (JDict base) ->
  Py.get issue "key" (JStr "") = Ok (JStr k) ->
  prepare_data_for_pulsar jira_url now issue event_type = Ok envelope ->
  filter_relevant_fields envelope = Ok (JDict base).
Proof.
  intros Hn Hk Henv.
  rewrite (envelope_appends _ now _ _ event_type _ Hn Hk) in Henv. injection Henv as <-.
  pose proof (filter_relevant_fields_fixed _ _ Hn) as Hfix.
  rewrite filter_relevant_fields_dict in Hfix |- *.
  destruct (whitelist_levels _ _ Hn) as [Htop _].
  pose proof (normalized_unique _ _ Hn) as Hu.
  assert (Hbase : top_level base = base).
  { apply top_level_fixed; [assumption|]. intros k0 Hk0. now apply mem_In, Htop. }
  assert (Hsame : top_level (base ++ metadata jira_url now event_type k) = base).
  { unfold top_level, Py.comprehension. rewrite fold_left_app.
    fold (Py.comprehension (fun k0 => Py.mem k0 relevant_fields) base).
    fold (top_level base). rewrite Hbase. reflexivity. }
  rewrite Hsame. now rewrite Hbase in Hfix.
Qed.

Lemma envelope_normalizes_to_record_witness :
  filter_relevant_fields
    (JDict (tracker_issue_items ++ metadata (Some "http://jira") sample_instant
                                           "initial_load" "TES-1"))
  = Ok (JDict tracker_issue_items).
Proof.
  apply (envelope_normalizes_to_record (Some "http://jira") sample_instant tracker_issue
           _ tracker_issue_items "initial_load" "TES-1"); reflexivity.
Defined.

(** ** The publish step and the webhook handler: every outcome *)

Lemma state_eq (n n' : nat) (es es' : list event) :
  n = n' -> es = es' -> {| calls := n; trace := es |} = {| calls := n'; trace := es' |}.
Proof. now intros -> ->. Qed.

Ltac state_is :=
  unfold after; cbn [calls trace]; apply state_eq;
  [lia | rewrite <- ?app_assoc; reflexivity].

(** X8. [send_to_pulsar] never raises and hands exactly one message to
    the producer.  It logs the delivery only when the producer accepted
    the message and the message has an [id]; a delivered message without
    [id] is logged as a sending error. *)
Theorem publish_step_never_raises (E : env) (data : json) (st : state) :
  exists m,
    send_to_pulsar E data st = Some (Ok tt, after st 1 [ProducerSend data; Print m]) /\
    (m = ErrorSendingData \/
     exists id, m = DataSent id /\ producer_send E (calls st) data = true /\
                Py.getitem data "id" = Ok id).
Proof.
  unfold send_to_pulsar, bind, call, emit.
  destruct (producer_send E (calls st) data) eqn:Hsent.
  - destruct (Py.getitem data "id") as [id|] eqn:Hid.
    + eexists. split; [same_state | right; eauto].
    + eexists. split; [same_state | now left].
  - eexists. split; [same_state | now left].
Qed.

(** X9. Every run of the handler has one of five shapes: a 400 answer or
    an exception before anything was fetched; a 500 answer after one
    fetch that failed or came back empty; an exception after one fetch
    (the envelope could not be built); a 200 answer after one fetch and
    one message handed to the producer.  So the handler never fetches
    twice, never publishes without a fetch, and answers 200 exactly when
    it handed a message to the producer. *)
Theorem webhook_outcomes (E : env) (req : request) (st : state) :
  exists r st',
    jira_webhook E req st = Some (r, st') /\
    ((exists payload, r = Ok (payload, 400%Z) /\ st' = st) \/
     (exists e, r = Raise e /\ st' = st) \/
     (exists i events,
         r = Ok (jsonify "error" "Failed to fetch issue details", 500%Z) /\
         st' = after st 1 (IssueGet i :: events) /\
         (events = [] \/ exists e, events = [Print (ErrorFetchingDetails i e)])) \/
     (exists i e, r = Raise e /\ st' = after st 2 [IssueGet i]) \/
     (exists i p m,
         r = Ok (jsonify "status" "success", 200%Z) /\
         st' = after st 3 [IssueGet i; ProducerSend p; Print m])).
Proof.
  unfold jira_webhook.
  destruct (is_json req); cbn [negb];
    [|do 2 eexists; split; [reflexivity | left; eauto]].
  unfold request_json, bind at 1.
  destruct (json_body req) as [data|];
    [|do 2 eexists; split; [reflexivity | right; left; eauto]].
  cbn [ret]. unfold bind at 1, lift.
  destruct (Py.contains "issue" data) as [[|]|];
    [ | do 2 eexists; split; [reflexivity | left; eauto]
      | do 2 eexists; split; [reflexivity | right; left; eauto]].
  cbn [ret]. unfold bind at 1.
  destruct (Py.getitem data "issue") as [issue|];
    [|do 2 eexists; split; [reflexivity | right; left; eauto]].
  cbn [ret]. unfold bind at 1.
  destruct (Py.getitem issue "id") as [issue_id|];
    [|do 2 eexists; split; [reflexivity | right; left; eauto]].
  cbn [ret]. unfold bind at 1, get_issue_details, bind at 1, call.
  destruct (issue_get E (calls st) issue_id) as [e|issue_data].
  - do 2 eexists. split; [reflexivity|]. right; right; left.
    exists issue_id. eexists. split; [reflexivity|]. split; [state_is | right; eauto].
  - cbn [ret]. destruct (Py.truthy issue_data).
    + unfold bind at 1, prepare, bind at 1, clock, lift. cbn [calls trace].
      destruct (prepare_data_for_pulsar _ _ issue_data _) as [p|e].
      * cbn [ret]. unfold bind at 1.
        destruct (send_to_pulsar_returns E p
                    {| calls := S (S (calls st)); trace := trace st ++ [IssueGet issue_id] |})
          as (m & -> & _).
        do 2 eexists. split; [reflexivity|]. do 4 right.
        exists issue_id, p, m. split; [reflexivity | state_is].
      * do 2 eexists. split; [reflexivity|]. right; right; right; left.
        exists issue_id, e. split; [reflexivity | state_is].
    + do 2 eexists. split; [reflexivity|]. right; right; left.
      exists issue_id, []. split; [reflexivity|]. split; [state_is | now left].
Qed.

Lemma webhook_reaches_fetch (E : env) (req : request) (body : items)
    (issue issue_id : json) (st : state) :
  is_json req = true ->
  json_body req = Some (JDict body) ->
  Py.lookup "issue" body = Some issue ->
  Py.getitem issue "id" = Ok issue_id ->
  jira_webhook E req st =
  (issue_data <- get_issue_details E issue_id ;;
   if Py.truthy issue_data then
     data_for_pulsar <- prepare E issue_data (event_type_of req) ;;
     send_to_pulsar E data_for_pulsar ;;;
     ret (jsonify "status" "success", 200%Z)
   else ret (jsonify "error" "Failed to fetch issue details", 500%Z))%io st.
Proof.
  intros Hjson Hbody Hissue Hid.
  unfold jira_webhook. rewrite Hjson. cbn [negb].
  unfold request_json. rewrite Hbody.
  rewrite (bind_ok _ _ st st (JDict body)) by reflexivity.
  assert (Hin : Py.mem "issue" (keys body) = true).
  { apply mem_In. apply lookup_In in Hissue. apply in_map_iff. now exists ("issue", issue). }
  rewrite (bind_ok _ _ st st true) by (apply lift_ok; simpl; now rewrite Hin).
  rewrite (bind_ok _ _ st st issue) by (apply lift_ok; simpl; now rewrite Hissue).
  now rewrite (bind_ok _ _ st st issue_id) by (now apply lift_ok).
Qed.

(** X10. When the issue cannot be fetched (the request raises, or the
    body read is empty or null), the handler answers 500 with
    [Failed to fetch issue details] after that one fetch; nothing is
    handed to the producer. *)
Theorem webhook_fetch_failure_answers_500 (E : env) (req : request) (body : items)
    (issue issue_id : json) (st : state) :
  is_json req = true ->
  json_body req = Some (JDict body) ->
  Py.lookup "issue" body = Some issue ->
  Py.getitem issue "id" = Ok issue_id ->
  (exists e, issue_get E (calls st) issue_id = RequestException e) \/
  (exists d, issue_get E (calls st) issue_id = Body d /\ Py.truthy d = false) ->
  exists events,
    jira_webhook E req st =
    Some (Ok (jsonify "error" "Failed to fetch issue details", 500%Z),
          after st 1 (IssueGet issue_id :: events)) /\
    (events = [] \/ exists e, events = [Print (ErrorFetchingDetails issue_id e)]).
Proof.
  intros Hjson Hbody Hissue Hid Hfetch.
  rewrite (webhook_reaches_fetch _ _ _ _ _ _ Hjson Hbody Hissue Hid).
  destruct Hfetch as [[e He] | (d & Hd & Hfalsy)].
  - rewrite (bind_ok _ _ _ _ _ (get_issue_details_failed E _ _ _ He)).
    cbn [Py.truthy]. eexists. split; [reflexivity | right; eauto].
  - rewrite (bind_ok _ _ _ _ _ (get_issue_details_body E _ _ _ Hd)).
    rewrite Hfalsy. exists []. split; [reflexivity | now left].
Qed.

Lemma webhook_fetch_failure_answers_500_witness :
  exists events,
    jira_webhook tracker_without_issue webhook_request initial =
    Some (Ok (jsonify "error" "Failed to fetch issue details", 500%Z),
          after initial 1 (IssueGet (JStr "10001") :: events)) /\
    (events = [] \/ exists e, events = [Print (ErrorFetchingDetails (JStr "10001") e)]).
Proof.
  apply (webhook_fetch_failure_answers_500 tracker_without_issue webhook_request
           [("webhookEvent", JStr "jira:issue_updated");
            ("issue", JDict [("id", JStr "10001")])]
           (JDict [("id", JStr "10001")]) (JStr "10001") initial); try reflexivity.
  left. exists (HTTPError 404). reflexivity.
Defined.

(** X11. When the issue is fetched and its envelope can be built, the
    handler hands the producer the envelope built at the instant read
    after the fetch, with the [X-Event-Key] header as [event_type], or
    [Unknown Event] when the header is missing, and answers 200. *)
Theorem webhook_publishes_envelope (E : env) (req : request) (body : items)
    (issue issue_id issue_data n : json) (k : string) (st : state) :
  is_json req = true ->
  json_body req = Some (JDict body) ->
  Py.lookup "issue" body = Some issue ->
  Py.getitem issue "id" = Ok issue_id ->
  issue_get E (calls st) issue_id = Body issue_data ->
  Py.truthy issue_data = true ->
  filter_relevant_fields issue_data = Ok n ->
  Py.get issue_data "key" (JStr "") = Ok (JStr k) ->
  exists envelope m,
    prepare_data_for_pulsar (jira_url E) (datetime_now E (S (calls st))) issue_data
                            (event_type_of req) = Ok envelope /\
    at_path ["event_type"] envelope = Some (JStr (event_type_of req)) /\
    jira_webhook E req st =
    Some (Ok (jsonify "status" "success", 200%Z),
          after st 3 [IssueGet issue_id; ProducerSend envelope; Print m]).
Proof.
  intros Hjson Hbody Hissue Hid Hget Htruthy Hn Hk.
  rewrite (webhook_reaches_fetch _ _ _ _ _ _ Hjson Hbody Hissue Hid).
  rewrite (bind_ok _ _ _ _ _ (get_issue_details_body E _ _ _ Hget)), Htruthy.
  destruct (prepare_ok E _ _ (event_type_of req) _ (after st 1 [IssueGet issue_id]) Hn Hk)
    as (envelope & Henv & Hprep).
  rewrite (bind_ok _ _ _ _ _ Hprep).
  destruct (send_to_pulsar_returns E envelope (after (after st 1 [IssueGet issue_id]) 1 []))
    as (m & Hsend & _).
  rewrite (bind_ok _ _ _ _ _ Hsend).
  cbn [after calls] in Henv. replace (calls st + 1) with (S (calls st)) in Henv by lia.
  exists envelope, m. split; [exact Henv|]. split.
  - destruct (prepare_data_for_pulsar_ok (jira_url E) (datetime_now E (S (calls st)))
                _ _ (event_type_of req) _ Hn Hk) as (base & _ & Hp).
    rewrite Hp in Henv. injection Henv as <-. simpl.
    rewrite lookup_set_other by discriminate. now rewrite lookup_set_same.
  - unfold ret. rewrite !after_after. reflexivity.
Qed.

Lemma webhook_publishes_envelope_witness :
  exists envelope m,
    prepare_data_for_pulsar (Some "http://jira") sample_instant tracker_issue
                            "Unknown Event" = Ok envelope /\
    at_path ["event_type"] envelope = Some (JStr "Unknown Event") /\
    jira_webhook healthy request_without_header initial =
    Some (Ok (jsonify "status" "success", 200%Z),
          after initial 3 [IssueGet (JStr "10001"); ProducerSend envelope; Print m]).
Proof.
  apply (webhook_publishes_envelope healthy request_without_header
           [("issue", JDict [("id", JStr "10001")])]
           (JDict [("id", JStr "10001")]) (JStr "10001") tracker_issue tracker_issue
           "TES-1" initial); reflexivity.
Defined.

(** ** Pagination in general *)

Lemma searches_cons (j m : nat) :
  searches j (S m) = SearchGet (50 * Z.of_nat j) 50 :: searches (S j) m.
Proof. reflexivity. Qed.

Lemma page_of_at (corpus : list json) (j : nat) :
  page_of corpus (50 * Z.of_nat j) = firstn 50 (skipn (50 * j) corpus).
Proof.
  unfold page_of. now replace (Z.to_nat (50 * Z.of_nat j)) with (50 * j) by lia.
Qed.

Lemma page_then_rest (corpus : list json) (j : nat) :
  page_of corpus (50 * Z.of_nat j) ++ skipn (50 * S j) corpus = skipn (50 * j) corpus.
Proof.
  rewrite page_of_at. replace (50 * S j) with (50 + 50 * j) by lia.
  rewrite <- skipn_skipn. apply firstn_skipn.
Qed.

Section FullPages.

Variable E : env.
Variable corpus : list json.

(** Over [m] full pages the loop advances by [m] searches and
    accumulates those pages. *)
Lemma full_pages (k : nat) :
  serves_below E corpus k -> 50 * k <= List.length corpus ->
  forall m j fuel acc st, j + m = k ->
    get_all_issues_loop E (m + fuel) acc (50 * Z.of_nat j) st =
    get_all_issues_loop E fuel (acc ++ firstn (50 * m) (skipn (50 * j) corpus))
                        (50 * Z.of_nat (j + m)) (after st m (searches j m)).
Proof.
  intros Hserves Hlen. induction m as [|m IH]; intros j fuel acc st Hjm.
  - simpl. rewrite app_nil_r, Nat.add_0_r. f_equal.
    unfold after. destruct st. simpl. now rewrite Nat.add_0_r, app_nil_r.
  - destruct (Hserves (calls st) j) as (d & Hget & Hissues); [lia|].
    cbn [Nat.add].
    rewrite (full_page_continues E _ _ _ _ _ _ Hget Hissues)
      by (rewrite page_of_at, length_firstn, length_skipn; lia).
    replace (50 * Z.of_nat j + 50)%Z with (50 * Z.of_nat (S j))%Z by lia.
    rewrite IH by lia. rewrite after_after. cbn [app]. rewrite <- searches_cons.
    replace (j + S m) with (S j + m) by lia.
    replace (1 + m) with (S m) by lia.
    f_equal. rewrite <- app_assoc. f_equal.
    rewrite page_of_at. replace (50 * S m) with (50 + 50 * m) by lia.
    replace (50 * S j) with (50 + 50 * j) by lia.
    rewrite <- skipn_skipn.
    rewrite <- (firstn_skipn 50 (skipn (50 * j) corpus)) at 3.
    rewrite firstn_app, length_firstn, length_skipn.
    replace (50 + 50 * m - Nat.min 50 (List.length corpus - 50 * j)) with (50 * m) by lia.
    rewrite firstn_firstn. now replace (Nat.min (50 + 50 * m) 50) with 50 by lia.
Qed.

End FullPages.

Lemma serves_serves_below (E : env) (corpus : list json) (k : nat) :
  serves E corpus -> serves_below E corpus k.
Proof. intros H t j _. apply H. Qed.

Lemma searches_snoc (m : nat) :
  searches 0 (m + 1) = searches 0 m ++ [SearchGet (50 * Z.of_nat m) 50].
Proof.
  unfold searches. now rewrite seq_app, map_app.
Qed.

(** X12. Whatever the size of the corpus the tracker holds, the loop
    returns the whole corpus after one search per started page, at the
    offsets 0, 50, 100, ...: [length / 50 + 1] searches.  A corpus whose
    size is a multiple of 50 (an empty one included) costs one more
    search, which comes back empty. *)
Theorem pagination_fetches_every_page (E : env) (corpus : list json) (fuel : nat)
    (st : state) :
  serves E corpus ->
  List.length corpus / 50 < fuel ->
  get_all_issues E fuel st =
  Some (Ok corpus,
        after st (List.length corpus / 50 + 1) (searches 0 (List.length corpus / 50 + 1))).
Proof.
  intros Hserves Hfuel.
  pose proof (Nat.div_mod_eq (List.length corpus) 50) as Hdiv.
  pose proof (Nat.mod_upper_bound (List.length corpus) 50) as Hmod.
  set (q := List.length corpus / 50) in *.
  set (r := List.length corpus mod 50) in *.
  assert (Hr : r < 50) by (apply Hmod; discriminate). clear Hmod.
  unfold get_all_issues. replace fuel with (q + S (fuel - S q)) by lia.
  change 0%Z with (50 * Z.of_nat 0)%Z.
  rewrite (full_pages E corpus q) by (try apply serves_serves_below; auto; lia).
  destruct (Hserves (calls (after st q (searches 0 q))) (50 * Z.of_nat (0 + q))%Z)
    as (d & Hget & Hissues).
  rewrite (short_page_stops E _ _ _ _ _ _ Hget Hissues)
    by (rewrite page_of_at, length_firstn, length_skipn; lia).
  rewrite after_after, searches_snoc. cbn [Nat.add skipn app].
  f_equal. f_equal. f_equal.
  rewrite page_of_at, (firstn_all2 (n := 50) (skipn (50 * q) corpus))
    by (rewrite length_skipn; lia).
  apply firstn_skipn.
Qed.

Lemma pagination_fetches_every_page_witness :
  get_all_issues (tracker_of (summaries 0 100)) 3 initial =
  Some (Ok (summaries 0 100),
        after initial (List.length (summaries 0 100) / 50 + 1)
              (searches 0 (List.length (summaries 0 100) / 50 + 1))).
Proof.
  apply (pagination_fetches_every_page (tracker_of (summaries 0 100)) (summaries 0 100) 3 initial).
  - intros t start_at. eexists. split; reflexivity.
  - vm_compute. lia.
Defined.

(** X13. The short page is the only way out of the loop besides an
    exception: against a tracker whose every answer has at least fifty
    issues (one that ignores [startAt], say) the loop does not return
    within any number of iterations. *)
Theorem pagination_needs_a_short_page (E : env) (fuel : nat) (st : state) :
  always_full E -> get_all_issues E fuel st = None.
Proof.
  intros Hfull. unfold get_all_issues. generalize (@nil json) 0%Z st.
  induction fuel as [|fuel IH]; intros acc start_at st0; [reflexivity|].
  destruct (Hfull (calls st0) start_at) as (d & page & Hget & Hissues & Hlen).
  rewrite (full_page_continues E _ _ _ _ _ _ Hget Hissues Hlen). apply IH.
Qed.

Lemma pagination_needs_a_short_page_witness :
  get_all_issues repeating_tracker 1000 initial = None.
Proof.
  apply (pagination_needs_a_short_page repeating_tracker 1000 initial).
  intros t start_at. do 2 eexists. split; [reflexivity|]. split; [reflexivity|].
  vm_compute. lia.
Defined.

(** X14. When the first [k] pages arrive full and the search for the next
    one raises a request exception, the loop logs the error and returns
    the [50 * k] summaries accumulated so far. *)
Theorem request_exception_keeps_accumulated (E : env) (corpus : list json) (k fuel : nat)
    (e : request_exception) (st : state) :
  serves_below E corpus k ->
  50 * k <= List.length corpus ->
  (forall t, search_get E t (50 * Z.of_nat k) 50 = RequestException e) ->
  k < fuel ->
  get_all_issues E fuel st =
  Some (Ok (firstn (50 * k) corpus),
        after st (k + 1)
              (searches 0 k ++ [SearchGet (50 * Z.of_nat k) 50; Print (ErrorFetchingIssues e)])).
Proof.
  intros Hserves Hlen Hfail Hfuel.
  unfold get_all_issues. replace fuel with (k + S (fuel - S k)) by lia.
  change 0%Z with (50 * Z.of_nat 0)%Z.
  rewrite (full_pages E corpus k) by (auto; lia).
  rewrite (request_exception_stops_pagination E _ _ _ e) by apply Hfail.
  rewrite after_after. reflexivity.
Qed.

Lemma request_exception_keeps_accumulated_witness :
  get_all_issues (failing_from 100 (summaries 0 127)) 5 initial =
  Some (Ok (firstn (50 * 2) (summaries 0 127)),
        after initial (2 + 1)
              (searches 0 2 ++ [SearchGet (50 * Z.of_nat 2) 50;
                                Print (ErrorFetchingIssues ConnectionError)])).
Proof.
  apply (request_exception_keeps_accumulated (failing_from 100 (summaries 0 127))
           (summaries 0 127) 2 5 ConnectionError initial).
  - intros t j Hj. destruct j as [|[|j]]; [| |lia]; eexists; split; reflexivity.
  - vm_compute. lia.
  - reflexivity.
  - lia.
Defined.

(** X19. A page that arrives as an object without [issues] makes
    [len(data["issues"])] raise [KeyError]; the exception is not a
    request exception, so it leaves the loop and whatever was
    accumulated is lost to the caller. *)
Theorem page_without_issues_raises (E : env) (fuel : nat) (acc : list json)
    (start_at : Z) (d : items) (st : state) :
  search_get E (calls st) start_at 50 = Body (JDict d) ->
  Py.lookup "issues" d = None ->
  get_all_issues_loop E (S fuel) acc start_at st =
  Some (Raise KeyError, after st 1 [SearchGet start_at 50]).
Proof.
  intros Hget Hnone. cbn [get_all_issues_loop]. unfold max_results.
  assert (Hcall : call (SearchGet start_at 50) (fun t => search_get E t start_at 50) st
                  = Some (Ok (Body (JDict d)), after st 1 [SearchGet start_at 50])).
  { unfold call. rewrite Hget. same_state. }
  rewrite (bind_ok _ _ _ _ _ Hcall).
  rewrite (bind_ok _ _ _ _ (JList [])) by (apply lift_ok; simpl; now rewrite Hnone).
  rewrite (bind_ok _ _ _ _ []) by reflexivity.
  unfold bind, lift. simpl. now rewrite Hnone.
Qed.

Lemma page_without_issues_raises_witness :
  get_all_issues_loop malformed_second_page 1 (summaries 0 50) 50
                      (after initial 1 [SearchGet 0 50]) =
  Some (Raise KeyError, after (after initial 1 [SearchGet 0 50]) 1 [SearchGet 50 50]).
Proof.
  apply (page_without_issues_raises malformed_second_page 0 (summaries 0 50) 50 []
           (after initial 1 [SearchGet 0 50])); reflexivity.
Defined.

(** ** The per-issue loop in general *)

Lemma fetched_app (a b : list event) : fetched (a ++ b) = fetched a ++ fetched b.
Proof.
  induction a as [|[| | |] a IH]; simpl; now rewrite ?IH.
Qed.

Lemma sent_app (a b : list event) : sent (a ++ b) = sent a ++ sent b.
Proof.
  induction a as [|[| | |] a IH]; simpl; now rewrite ?IH.
Qed.

Lemma for_each_issue_empty_body (E : env) (s i d : json) (rest : list json) (st : state) :
  Py.getitem s "id" = Ok i ->
  issue_get E (calls st) i = Body d ->
  Py.truthy d = false ->
  for_each_issue E (s :: rest) st = for_each_issue E rest (after st 1 [IssueGet i]).
Proof.
  intros Hid Hget Hfalsy. cbn [for_each_issue].
  rewrite (bind_ok _ _ st st i) by (now apply lift_ok).
  rewrite (bind_ok _ _ _ _ _ (get_issue_details_body E _ _ _ Hget)).
  rewrite Hfalsy. now rewrite (bind_ok _ _ _ _ tt) by reflexivity.
Qed.

Lemma initial_load_envelope (jira_url : option string) (now : datetime)
    (d n envelope : json) (k : string) :
  filter_relevant_fields d = Ok n ->
  Py.get d "key" (JStr "") = Ok (JStr k) ->
  prepare_data_for_pulsar jira_url now d "initial_load" = Ok envelope ->
  at_path ["event_type"] envelope = Some (JStr "initial_load").
Proof.
  intros Hn Hk Henv.
  destruct (prepare_data_for_pulsar_ok jira_url now _ _ "initial_load" _ Hn Hk)
    as (base & _ & Hp).
  rewrite Hp in Henv. injection Henv as <-. simpl.
  rewrite lookup_set_other by discriminate. now rewrite lookup_set_same.
Qed.

(** X15. When every accumulated summary has an id and every issue read
    ends in a request exception, an empty body or an issue that
    normalises, the loop returns normally whatever the producer
    answers; it reads every issue once, in the order of the summaries,
    and every message it hands to the producer carries the event type
    [initial_load]. *)
Theorem backfill_attempts_every_issue (E : env) (issues : list json) (st : state) :
  Forall (attemptable E) issues ->
  exists n events,
    for_each_issue E issues st = Some (Ok tt, after st n events) /\
    fetched events = ids_of issues /\
    Forall (fun p => at_path ["event_type"] p = Some (JStr "initial_load")) (sent events).
Proof.
  intros Hall. revert st. induction Hall as [|s rest (i & Hid & Hget) _ IH]; intros st.
  - exists 0, []. repeat split; [|constructor].
    unfold after. destruct st. simpl. now rewrite Nat.add_0_r, app_nil_r.
  - assert (Hids : ids_of (s :: rest) = i :: ids_of rest)
      by (unfold ids_of; simpl; now rewrite Hid).
    specialize (Hget (calls st)). unfold survivable in Hget.
    destruct (issue_get E (calls st) i) as [e|d] eqn:Hanswer.
    + rewrite (for_each_issue_skipped E _ _ _ _ _ Hid Hanswer).
      destruct (IH (after st 1 [IssueGet i; Print (ErrorFetchingDetails i e)]))
        as (n & events & -> & Hf & Hs).
      do 2 eexists. rewrite after_after. split; [reflexivity|].
      rewrite fetched_app, sent_app, Hids. simpl. split; [now rewrite Hf | assumption].
    + destruct (Py.truthy d) eqn:Htruthy.
      * destruct Hget as [Hfalse | (n0 & k & Hn & Hk)]; [discriminate|].
        destruct (for_each_issue_published E _ _ _ _ _ rest _ Hid Hanswer Htruthy Hn Hk)
          as (envelope & m & Henv & ->).
        destruct (IH (after st 3 [IssueGet i; ProducerSend envelope; Print m]))
          as (n & events & -> & Hf & Hs).
        do 2 eexists. rewrite after_after. split; [reflexivity|].
        rewrite fetched_app, sent_app, Hids. simpl. split; [now rewrite Hf|].
        constructor; [|assumption].
        exact (initial_load_envelope _ _ _ _ _ _ Hn Hk Henv).
      * rewrite (for_each_issue_empty_body E _ _ _ _ _ Hid Hanswer Htruthy).
        destruct (IH (after st 1 [IssueGet i])) as (n & events & -> & Hf & Hs).
        do 2 eexists. rewrite after_after. split; [reflexivity|].
        rewrite fetched_app, sent_app, Hids. simpl. split; [now rewrite Hf | assumption].
Qed.

Lemma backfill_attempts_every_issue_witness :
  exists n events,
    for_each_issue second_issue_unreadable (summaries 1 3) initial
      = Some (Ok tt, after initial n events) /\
    fetched events = ids_of (summaries 1 3) /\
    Forall (fun p => at_path ["event_type"] p = Some (JStr "initial_load")) (sent events).
Proof.
  apply (backfill_attempts_every_issue second_issue_unreadable (summaries 1 3) initial).
  repeat constructor; eexists; (split; [reflexivity|]); intros t; simpl;
    try exact I; right; exists tracker_issue, "TES-1"; split; reflexivity.
Defined.

Lemma bind_raises {A B} (m : M A) (k : A -> M B) (st st' : state) (e : exn) :
  m st = Some (Raise e, st') -> bind m k st = Some (Raise e, st').
Proof. unfold bind. now intros ->. Qed.

(** X16. An issue that is fetched but whose envelope cannot be built
    ends the whole backfill: the exception of [prepare_data_for_pulsar]
    leaves the loop right after that fetch, and no later summary is
    read. *)
Theorem envelope_failure_aborts_backfill (E : env) (s i d : json) (e : exn)
    (rest : list json) (st : state) :
  Py.getitem s "id" = Ok i ->
  issue_get E (calls st) i = Body d ->
  Py.truthy d = true ->
  prepare_data_for_pulsar (jira_url E) (datetime_now E (S (calls st))) d "initial_load"
    = Raise e ->
  for_each_issue E (s :: rest) st = Some (Raise e, after st 2 [IssueGet i]).
Proof.
  intros Hid Hget Htruthy Hfail. cbn [for_each_issue].
  rewrite (bind_ok _ _ st st i) by (now apply lift_ok).
  rewrite (bind_ok _ _ _ _ _ (get_issue_details_body E _ _ _ Hget)).
  rewrite Htruthy.
  assert (Hprep : prepare E d "initial_load" (after st 1 [IssueGet i]) =
                  Some (Raise e, after st 2 [IssueGet i])).
  { unfold prepare, bind, clock, lift. cbn [after calls trace].
    replace (calls st + 1) with (S (calls st)) by lia.
    rewrite Hfail. unfold raise. same_state. }
  now rewrite (bind_raises _ _ _ _ _ (bind_raises _ _ _ _ _ Hprep)).
Qed.

Lemma envelope_failure_aborts_backfill_witness :
  for_each_issue tracker_with_null_keys (summaries 1 3) initial =
  Some (Raise TypeError, after initial 2 [IssueGet (JStr "1")]).
Proof.
  apply (envelope_failure_aborts_backfill tracker_with_null_keys
           (JDict [("id", JStr "1")]) (JStr "1") (JDict issue_with_null_key_items)
           TypeError (summaries 2 2) initial); reflexivity.
Defined.

(** X17. [main] reads no issue and prints its failure message when the
    accumulated list is empty, be it because the first search raised a
    request exception or because the tracker answered with no issue at
    all. *)
Theorem empty_result_reported_as_failure (E : env) (fuel : nat) (st : state) :
  (exists e, search_get E (calls st) 0 50 = RequestException e) \/
  (exists d, search_get E (calls st) 0 50 = Body (JDict d) /\
             Py.lookup "issues" d = Some (JList [])) ->
  exists events,
    main E (S fuel) st =
    Some (Ok tt, after st 1 (SearchGet 0 50 :: events ++ [Print FailedToRetrieveIssues])) /\
    (events = [] \/ exists e, events = [Print (ErrorFetchingIssues e)]).
Proof.
  intros [[e He] | (d & Hd & Hissues)]; unfold main, get_all_issues.
  - rewrite (bind_ok _ _ _ _ _ (request_exception_stops_pagination E fuel [] 0 e st He)).
    eexists. split; [|right; eauto]. unfold emit. same_state.
  - assert (Hshort : @List.length json [] < 50) by (simpl; lia).
    rewrite (bind_ok _ _ _ _ _ (short_page_stops E fuel [] [] 0 d st Hd Hissues Hshort)).
    cbn [app]. exists []. split; [|now left]. unfold emit. same_state.
Qed.

Lemma empty_result_reported_as_failure_witness :
  exists events,
    main empty_tracker 1 initial =
    Some (Ok tt,
          after initial 1 (SearchGet 0 50 :: events ++ [Print FailedToRetrieveIssues])) /\
    (events = [] \/ exists e, events = [Print (ErrorFetchingIssues e)]).
Proof.
  apply (empty_result_reported_as_failure empty_tracker 0 initial).
  right. eexists. split; reflexivity.
Defined.

(** ** A fetch failure inside the backfill *)

(** C8. Three summaries were accumulated and the details of the second
    come back as a body that is JSON but not an issue.  The body is not
    empty, so it passes [if issue_data:]; [filter_relevant_fields]
    raises [AttributeError] on it outside any [try], and [main] ends
    there: the first issue was published, the third is never fetched,
    and the run does not terminate normally. *)
Theorem malformed_issue_body_aborts_backfill (fuel : nat) :
  get_all_issues second_issue_malformed (S fuel) initial =
    Some (Ok (summaries 1 3), after initial 1 [SearchGet 0 50]) /\
  issue_get second_issue_malformed 4 (JStr "2") = Body malformed_issue_body /\
  Py.truthy malformed_issue_body = true /\
  filter_relevant_fields malformed_issue_body = Raise AttributeError /\
  exists p1,
    main second_issue_malformed (S fuel) initial =
    Some (Raise AttributeError,
          {| calls := 6;
             trace := [SearchGet 0 50;
                       IssueGet (JStr "1"); ProducerSend p1; Print (DataSent (JStr "10001"));
                       IssueGet (JStr "2")] |}).
Proof.
  repeat split. eexists. vm_compute. reflexivity.
Qed.

(** When the failure is a request exception the loop does skip the
    issue: the first and the third issue are fetched, normalised and
    handed to the producer as their normalised record followed by the
    metadata of an [initial_load], the second is logged and skipped, and
    [main] returns normally. *)
Lemma backfill_skips_unreadable_issue (E : env) (fuel : nat)
    (s1 s2 s3 i1 i2 i3 d1 d3 : json) (base1 base3 : items) (k1 k3 : string)
    (e : request_exception) (st st1 : state) :
  get_all_issues E fuel st = Some (Ok [s1; s2; s3], st1) ->
  Py.getitem s1 "id" = Ok i1 ->
  Py.getitem s2 "id" = Ok i2 ->
  Py.getitem s3 "id" = Ok i3 ->
  (forall t, issue_get E t i1 = Body d1) ->
  (forall t, issue_get E t i2 = RequestException e) ->
  (forall t, issue_get E t i3 = Body d3) ->
  Py.truthy d1 = true ->
  filter_relevant_fields d1 = Ok (JDict base1) ->
  Py.get d1 "key" (JStr "") = Ok (JStr k1) ->
  Py.truthy d3 = true ->
  filter_relevant_fields d3 = Ok (JDict base3) ->
  Py.get d3 "key" (JStr "") = Ok (JStr k3) ->
  exists m1 m3,
    main E fuel st =
    Some (Ok tt,
          after st1 7
            [IssueGet i1;
             ProducerSend (JDict (base1 ++ metadata (jira_url E)
                                    (datetime_now E (calls st1 + 1)) "initial_load" k1));
             Print m1;
             IssueGet i2; Print (ErrorFetchingDetails i2 e);
             IssueGet i3;
             ProducerSend (JDict (base3 ++ metadata (jira_url E)
                                    (datetime_now E (calls st1 + 5)) "initial_load" k3));
             Print m3]).
Proof.
  intros Hall Hi1 Hi2 Hi3 Hg1 Hg2 Hg3 Ht1 Hn1 Hk1 Ht3 Hn3 Hk3.
  unfold main. rewrite (bind_ok _ _ _ _ _ Hall). cbn beta iota.
  destruct (for_each_issue_published E s1 i1 d1 _ k1 [s2; s3] st1 Hi1 (Hg1 _) Ht1 Hn1 Hk1)
    as (p1 & m1 & Hp1 & ->).
  rewrite (envelope_appends _ _ _ _ "initial_load" _ Hn1 Hk1) in Hp1. injection Hp1 as <-.
  set (st2 := after st1 3 _).
  rewrite (for_each_issue_skipped E s2 i2 e [s3] st2 Hi2 (Hg2 _)).
  set (st3 := after st2 1 _).
  destruct (for_each_issue_published E s3 i3 d3 _ k3 [] st3 Hi3 (Hg3 _) Ht3 Hn3 Hk3)
    as (p3 & m3 & Hp3 & ->).
  rewrite (envelope_appends _ _ _ _ "initial_load" _ Hn3 Hk3) in Hp3. injection Hp3 as <-.
  exists m1, m3. cbn [for_each_issue]. unfold ret, st3, st2. rewrite !after_after.
  cbn [after calls].
  replace (S (calls st1)) with (calls st1 + 1) by lia.
  replace (S (calls st1 + 3 + 1)) with (calls st1 + 5) by lia.
  reflexivity.
Qed.

Lemma backfill_skips_unreadable_issue_example :
  exists m1 m3,
    main second_issue_unreadable 1 initial =
    Some (Ok tt,
          after (after initial 1 [SearchGet 0 50]) 7
            [IssueGet (JStr "1");
             ProducerSend (JDict (tracker_issue_items ++
                                  metadata (Some "http://jira") sample_instant
                                           "initial_load" "TES-1"));
             Print m1;
             IssueGet (JStr "2"); Print (ErrorFetchingDetails (JStr "2") (HTTPError 404));
             IssueGet (JStr "3");
             ProducerSend (JDict (tracker_issue_items ++
                                  metadata (Some "http://jira") sample_instant
                                           "initial_load" "TES-1"));
             Print m3]).
Proof.
  apply (backfill_skips_unreadable_issue second_issue_unreadable 1
           (JDict [("id", JStr "1")]) (JDict [("id", JStr "2")]) (JDict [("id", JStr "3")])
           (JStr "1") (JStr "2") (JStr "3") tracker_issue tracker_issue
           tracker_issue_items tracker_issue_items "TES-1" "TES-1" (HTTPError 404) initial
           (after initial 1 [SearchGet 0 50])); try reflexivity.
Defined.
